(** * Cost-aware query gateway of votegtr-analytics

    A shallow embedding of the cost monitor ([src/cost_monitor.py]), of the
    query cache and query optimizer ([src/query_optimizer.py]) and of the
    cost-controlled execution path of the warehouse manager
    ([src/bigquery_optimized.py]), followed by the properties checked
    against them.

    Conventions of the embedding:
    - a Python [int] is a [Z]; a Python [float] is an IEEE 754 binary64
      value, computed with the bit-exact operations of [SpecFloat];
    - a Python [str] is a [string]; query text is taken to be ASCII, on
      which [str.upper] is the map a-z to A-Z;
    - a raised exception is the [Raise] case of [result];
    - [datetime.now()] is an explicit argument: a clock reading in
      microseconds;
    - text that the code only prints or interpolates into a message is
      carried as the interpolated values, not as formatted text. *)

From Stdlib Require Import ZArith Bool List Lia Ascii String.
From Stdlib Require Import Floats.SpecFloat.
From stdpp Require Import gmap strings pretty.

Local Open Scope Z_scope.

(** ** Exceptions *)

Inductive py_exn : Type :=
| OverflowError
| ZeroDivisionError
| UnboundLocalError
| DailyQueryLimitExceeded (limit : Z)
| QueryExceedsByteLimit (bytes : Z)
| ExternalError (what : string).

Inductive result (A : Type) : Type :=
| Ok (a : A)
| Raise (e : py_exn).
Arguments Ok {A} a.
Arguments Raise {A} e.

Definition bind {A B : Type} (r : result A) (k : A -> result B) : result B :=
  match r with
  | Ok a => k a
  | Raise e => Raise e
  end.

Notation "x <- r ;; k" := (bind r (fun x => k))
  (at level 100, r at next level, right associativity).

(** ** Python floats *)

Module PyFloat.

Definition float : Type := spec_float.

Definition prec : Z := 53.
Definition emax : Z := 1024.

Definition fadd (x y : float) : float := SFadd prec emax x y.
Definition fmul (x y : float) : float := SFmul prec emax x y.

(** [x < y] and [x > y]; both are false when an operand is a NaN. *)
Definition flt (x y : float) : bool := SFltb x y.
Definition fgt (x y : float) : bool := SFltb y x.

Definition is_infinity (x : float) : bool :=
  match x with
  | S754_infinity _ => true
  | _ => false
  end.

(** The quotient of two ints rounded once, to nearest even. *)
Definition raw_quotient (sa : bool) (pa : positive) (sb : bool) (pb : positive) : float :=
  SFdiv prec emax (S754_finite sa pa 0) (S754_finite sb pb 0).

(** [a / b] on two ints: the correctly rounded quotient, [ZeroDivisionError]
    for [b = 0], [OverflowError] when the quotient is too large. *)
Definition int_truediv (a b : Z) : result float :=
  match b with
  | Z0 => Raise ZeroDivisionError
  | Zpos pb =>
      match a with
      | Z0 => Ok (S754_zero false)
      | Zpos pa =>
          let q := raw_quotient false pa false pb in
          if is_infinity q then Raise OverflowError else Ok q
      | Zneg pa =>
          let q := raw_quotient true pa false pb in
          if is_infinity q then Raise OverflowError else Ok q
      end
  | Zneg pb =>
      match a with
      | Z0 => Ok (S754_zero true)
      | Zpos pa =>
          let q := raw_quotient false pa true pb in
          if is_infinity q then Raise OverflowError else Ok q
      | Zneg pa =>
          let q := raw_quotient true pa true pb in
          if is_infinity q then Raise OverflowError else Ok q
      end
  end.

(** A decimal literal [digits / 10^scale] of the source text, such as
    [0.10] or [5.00]: the nearest double. *)
Definition literal (digits : positive) (scale : nat) : float :=
  raw_quotient false digits false (Z.to_pos (10 ^ Z.of_nat scale)).

(** A small int operand of a float operation, converted exactly. *)
Definition of_small_int (z : Z) : float := binary_normalize prec emax z 0 false.

Definition zero : float := S754_zero false.

(** The exponent of the last mantissa bit kept for a value below [2^e]:
    [fexp prec emax e]. *)
Definition F (e : Z) : Z := Z.max (e - 53) (-1074).

Definition is_zero (x : float) : bool :=
  match x with
  | S754_zero _ => true
  | _ => false
  end.

Definition fsub (x y : float) : float := SFsub prec emax x y.

(** [x / y] on two floats: [ZeroDivisionError] for a zero divisor. *)
Definition fdiv (x y : float) : result float :=
  match y with
  | S754_zero _ => Raise ZeroDivisionError
  | _ => Ok (SFdiv prec emax x y)
  end.

(** [x >= y]; false when an operand is a NaN. *)
Definition fge (x y : float) : bool := SFleb y x.

(** [n > x] for an int [n] and a float [x]: the comparison of the two
    numbers themselves, without rounding [n]. *)
Definition int_gt_float (n : Z) (x : float) : bool :=
  match x with
  | S754_nan => false
  | S754_infinity s => s
  | S754_zero _ => 0 <? n
  | S754_finite s m e =>
      let v := if s then Zneg m else Zpos m in
      if 0 <=? e then v * 2 ^ e <? n else v <? n * 2 ^ (- e)
  end.

End PyFloat.

Import PyFloat.

(** ** The cost monitor ([cost_monitor.py]) *)

Module CostMonitor.

Inductive AlertSeverity : Type := INFO | WARNING | CRITICAL | EMERGENCY.

Inductive CostStatus : Type := HEALTHY | STATUS_WARNING | STATUS_CRITICAL | EXCEEDED.

Record CostThresholds : Type := {
  hourly_limit : float;
  daily_limit : float;
  monthly_limit : float;
  query_cost_warning : float;
  query_cost_limit : float;
  bytes_per_query_limit : Z;
  queries_per_hour_limit : Z;
  queries_per_day_limit : Z
}.

(** The dataclass defaults. *)
Definition default_thresholds : CostThresholds := {|
  hourly_limit := literal 25 2;
  daily_limit := literal 500 2;
  monthly_limit := literal 15000 2;
  query_cost_warning := literal 10 2;
  query_cost_limit := literal 100 2;
  bytes_per_query_limit := 100000000;
  queries_per_hour_limit := 100;
  queries_per_day_limit := 1000
|}.

Record monitor : Type := {
  thresholds : CostThresholds;
  current_hour_queries : Z;
  current_day_queries : Z;
  current_day_cost : float;
  current_month_cost : float;
  emergency_stop : bool
}.

(** [CostMonitor.__init__] *)
Definition init : monitor := {|
  thresholds := default_thresholds;
  current_hour_queries := 0;
  current_day_queries := 0;
  current_day_cost := zero;
  current_month_cost := zero;
  emergency_stop := false
|}.

(** What a decision dict says besides ['approved'] and ['severity']: the
    values its message interpolates. *)
Inductive detail : Type :=
| ReasonCostExceedsLimit (estimated_cost limit : float)
| ReasonSizeExceedsLimit (bytes : Z)
| ReasonDailyBudget (day_cost estimated_cost limit : float)
| WarningHighCost (estimated_cost : float)
| EstimatedCost (estimated_cost : float).

Record decision : Type := {
  approved : bool;
  info : detail;
  severity : AlertSeverity
}.

(** [(bytes_to_process / 1_000_000_000_000) * 5.00] *)
Definition estimated_cost (bytes_to_process : Z) : result float :=
  q <- int_truediv bytes_to_process 1000000000000 ;;
  Ok (fmul q (literal 500 2)).

Definition check_query_cost (self : monitor) (bytes_to_process : Z) : result decision :=
  cost <- estimated_cost bytes_to_process ;;
  let th := thresholds self in
  if fgt cost (query_cost_limit th) then
    Ok {| approved := false;
          info := ReasonCostExceedsLimit cost (query_cost_limit th);
          severity := CRITICAL |}
  else if bytes_to_process >? bytes_per_query_limit th then
    Ok {| approved := false;
          info := ReasonSizeExceedsLimit bytes_to_process;
          severity := CRITICAL |}
  else if fgt (fadd (current_day_cost self) cost) (daily_limit th) then
    Ok {| approved := false;
          info := ReasonDailyBudget (current_day_cost self) cost (daily_limit th);
          severity := CRITICAL |}
  else if fgt cost (query_cost_warning th) then
    Ok {| approved := true; info := WarningHighCost cost; severity := WARNING |}
  else
    Ok {| approved := true; info := EstimatedCost cost; severity := INFO |}.

Inductive alert_type : Type :=
| hourly_query_limit (queries limit : Z)
| daily_query_limit (queries limit : Z)
| daily_cost_limit (cost limit : float)
| monthly_cost_limit (cost limit : float).

Record alert : Type := {
  type : alert_type;
  alert_severity : AlertSeverity
}.

Definition set_emergency_stop (self : monitor) : monitor := {|
  thresholds := thresholds self;
  current_hour_queries := current_hour_queries self;
  current_day_queries := current_day_queries self;
  current_day_cost := current_day_cost self;
  current_month_cost := current_month_cost self;
  emergency_stop := true
|}.

(** [_check_limits]: the monitor afterwards and the alerts sent, in order. *)
Definition _check_limits (self : monitor) : monitor * list alert :=
  let th := thresholds self in
  let alerts0 :=
    if current_hour_queries self >? queries_per_hour_limit th
    then [ {| type := hourly_query_limit (current_hour_queries self) (queries_per_hour_limit th);
              alert_severity := WARNING |} ]
    else [] in
  let '(self1, alerts1) :=
    if current_day_queries self >? queries_per_day_limit th
    then (set_emergency_stop self,
          alerts0 ++ [ {| type := daily_query_limit (current_day_queries self) (queries_per_day_limit th);
                          alert_severity := CRITICAL |} ])
    else (self, alerts0) in
  let '(self2, alerts2) :=
    if fgt (current_day_cost self1) (daily_limit th)
    then (set_emergency_stop self1,
          alerts1 ++ [ {| type := daily_cost_limit (current_day_cost self1) (daily_limit th);
                          alert_severity := EMERGENCY |} ])
    else (self1, alerts1) in
  if fgt (current_month_cost self2) (monthly_limit th)
  then (set_emergency_stop self2,
        alerts2 ++ [ {| type := monthly_cost_limit (current_month_cost self2) (monthly_limit th);
                        alert_severity := EMERGENCY |} ])
  else (self2, alerts2).

Definition update_usage (self : monitor) (bytes_processed : Z) (cost : float)
  : monitor * list alert :=
  _check_limits {|
    thresholds := thresholds self;
    current_hour_queries := current_hour_queries self + 1;
    current_day_queries := current_day_queries self + 1;
    current_day_cost := fadd (current_day_cost self) cost;
    current_month_cost := fadd (current_month_cost self) cost;
    emergency_stop := emergency_stop self
  |}.

Definition reset_hourly_counters (self : monitor) : monitor := {|
  thresholds := thresholds self;
  current_hour_queries := 0;
  current_day_queries := current_day_queries self;
  current_day_cost := current_day_cost self;
  current_month_cost := current_month_cost self;
  emergency_stop := emergency_stop self
|}.

Definition reset_daily_counters (self : monitor) : monitor := {|
  thresholds := thresholds self;
  current_hour_queries := current_hour_queries self;
  current_day_queries := 0;
  current_day_cost := zero;
  current_month_cost := current_month_cost self;
  emergency_stop := false
|}.

Definition reset_monthly_counters (self : monitor) : monitor := {|
  thresholds := thresholds self;
  current_hour_queries := current_hour_queries self;
  current_day_queries := current_day_queries self;
  current_day_cost := current_day_cost self;
  current_month_cost := zero;
  emergency_stop := emergency_stop self
|}.

(** The calls a client of the monitor can make, and a run of them. *)
Inductive call : Type :=
| CheckQueryCost (bytes_to_process : Z)
| UpdateUsage (bytes_processed : Z) (cost : float)
| ResetHourly
| ResetDaily
| ResetMonthly.

Definition step (self : monitor) (c : call) : monitor :=
  match c with
  | CheckQueryCost _ => self
  | UpdateUsage b cost => fst (update_usage self b cost)
  | ResetHourly => reset_hourly_counters self
  | ResetDaily => reset_daily_counters self
  | ResetMonthly => reset_monthly_counters self
  end.

Definition run (self : monitor) (cs : list call) : monitor := fold_left step cs self.

Definition is_daily_reset (c : call) : bool :=
  match c with
  | ResetDaily => true
  | _ => false
  end.

(** The dict of [get_cost_status], without its timestamp. *)
Record cost_status : Type := {
  status : CostStatus;
  status_emergency_stop : bool;
  hour_queries : Z;
  hour_limit : Z;
  day_queries : Z;
  day_query_limit : Z;
  day_cost : float;
  day_cost_limit : float;
  day_percentage : float;
  day_remaining : float;
  month_cost : float;
  month_limit : float;
  month_percentage : float;
  month_remaining : float
}.

Definition get_cost_status (self : monitor) : result cost_status :=
  let th := thresholds self in
  dq <- fdiv (current_day_cost self) (daily_limit th) ;;
  let daily_percentage := fmul dq (of_small_int 100) in
  mq <- fdiv (current_month_cost self) (monthly_limit th) ;;
  let monthly_percentage := fmul mq (of_small_int 100) in
  let status :=
    if fge daily_percentage (of_small_int 95) || fge monthly_percentage (of_small_int 95)
    then EXCEEDED
    else if fge daily_percentage (of_small_int 80) || fge monthly_percentage (of_small_int 80)
    then STATUS_CRITICAL
    else if fge daily_percentage (of_small_int 50) || fge monthly_percentage (of_small_int 50)
    then STATUS_WARNING
    else HEALTHY in
  Ok {| status := status;
        status_emergency_stop := emergency_stop self;
        hour_queries := current_hour_queries self;
        hour_limit := queries_per_hour_limit th;
        day_queries := current_day_queries self;
        day_query_limit := queries_per_day_limit th;
        day_cost := current_day_cost self;
        day_cost_limit := daily_limit th;
        day_percentage := daily_percentage;
        day_remaining := fsub (daily_limit th) (current_day_cost self);
        month_cost := current_month_cost self;
        month_limit := monthly_limit th;
        month_percentage := monthly_percentage;
        month_remaining := fsub (monthly_limit th) (current_month_cost self) |}.

(** The severities on which [_send_alert] announces the suspension of the
    pipeline. *)
Definition suspends (a : alert) : bool :=
  match alert_severity a with
  | CRITICAL | EMERGENCY => true
  | _ => false
  end.

End CostMonitor.

(** ** Python strings *)

Module PyStr.

Local Open Scope string_scope.

Definition nl : string := String (Ascii.ascii_of_nat 10) "".

(** [str.upper] on an ASCII character. On a text of ASCII characters
    [upper] is [str.upper]; a character outside ASCII is left as it is here,
    while [str.upper] maps some of them to ASCII letters, so a statement
    that reads [upper] as [str.upper] on the query it is given restricts
    the query by [is_ascii]. *)
Definition upper_char (c : ascii) : ascii :=
  let n := Ascii.nat_of_ascii c in
  if ((97 <=? n)%nat && (n <=? 122)%nat)%bool then Ascii.ascii_of_nat (n - 32) else c.

Fixpoint upper (s : string) : string :=
  match s with
  | "" => ""
  | String c s' => String (upper_char c) (upper s')
  end.

(** [s.startswith(p)] *)
Fixpoint startswith (p s : string) : bool :=
  match p, s with
  | "", _ => true
  | String _ _, "" => false
  | String a p', String b s' => if Ascii.eqb a b then startswith p' s' else false
  end.

(** [sub in s] *)
Fixpoint contains (sub s : string) : bool :=
  if startswith sub s then true
  else match s with
       | "" => false
       | String _ s' => contains sub s'
       end.

(** [s.replace(old, new)] for a non-empty [old]: the occurrences are taken
    from the left and do not overlap; [skip] counts the characters of a
    matched occurrence that are still to be dropped. *)
Fixpoint replace_from (old new : string) (skip : nat) (s : string) : string :=
  match s with
  | "" => ""
  | String c s' =>
      match skip with
      | S k => replace_from old new k s'
      | O =>
          if startswith old s
          then new +:+ replace_from old new (String.length old - 1) s'
          else String c (replace_from old new 0 s')
      end
  end.

(** With an empty [old], [new] is put before every character and at the end. *)
Fixpoint intersperse (new s : string) : string :=
  match s with
  | "" => new
  | String c s' => new +:+ String c (intersperse new s')
  end.

Definition replace (old new s : string) : string :=
  match old with
  | "" => intersperse new s
  | String _ _ => replace_from old new 0 s
  end.

(** ['\n'.join(parts)] *)
Fixpoint join (sep : string) (parts : list string) : string :=
  match parts with
  | [] => ""
  | [p] => p
  | p :: rest => p +:+ sep +:+ join sep rest
  end.

(** [str(n)] of an int *)
Definition str_of_int (n : Z) : string := pretty n.

(** No character of A-Z occurs: the text is written in lower case. *)
Definition is_upper_char (c : ascii) : bool :=
  let n := Ascii.nat_of_ascii c in ((65 <=? n)%nat && (n <=? 90)%nat)%bool.

Fixpoint has_no_upper (s : string) : bool :=
  match s with
  | "" => true
  | String c s' => negb (is_upper_char c) && has_no_upper s'
  end.

(** [s.isascii()]: every character is below 128. *)
Definition is_ascii_char (c : ascii) : bool := (Ascii.nat_of_ascii c <? 128)%nat.

Fixpoint is_ascii (s : string) : bool :=
  match s with
  | "" => true
  | String c s' => is_ascii_char c && is_ascii s'
  end.

(** The number of occurrences of a character. *)
Fixpoint count_char (a : ascii) (s : string) : nat :=
  match s with
  | "" => 0
  | String c s' => (if Ascii.eqb a c then 1 else 0) + count_char a s'
  end.

(** [str.lower] on an ASCII character and on a text *)
Definition lower_char (c : ascii) : ascii :=
  let n := Ascii.nat_of_ascii c in
  if ((65 <=? n)%nat && (n <=? 90)%nat)%bool then Ascii.ascii_of_nat (n + 32) else c.

Fixpoint lower (s : string) : string :=
  match s with
  | "" => ""
  | String c s' => String (lower_char c) (lower s')
  end.

End PyStr.

Import PyStr.

(** ** Datetimes *)

Module PyTime.

(** A [datetime] is its number of microseconds since [datetime.min];
    [datetime.max] is the last microsecond of the year 9999. *)
Definition datetime_max : Z := 315537897599999999.

(** [timedelta(seconds=s)] in microseconds; its day count is limited to
    nine digits. *)
Definition timedelta_seconds (s : Z) : result Z :=
  let days := s / 86400 in
  if ((-999999999 <=? days) && (days <=? 999999999))%bool
  then Ok (s * 1000000)
  else Raise OverflowError.

(** [datetime + timedelta] *)
Definition datetime_add (t delta : Z) : result Z :=
  let r := t + delta in
  if ((0 <=? r) && (r <=? datetime_max))%bool then Ok r else Raise OverflowError.

End PyTime.

Import PyTime.

(** ** The query cache ([query_optimizer.py], class [QueryCache]) *)

Module QueryCache.

Section Cache.

(** The parameter dicts and the payloads are opaque to the cache. A
    payload of type [option Data] is a Python value that may be [None]. *)
Variables Params Data : Type.

(** [json.dumps(d, sort_keys=True)], whether a dict is empty, and
    [hashlib.md5(s.encode()).hexdigest()]. *)
Variable json_dumps_sorted : Params -> string.
Variable params_is_empty : Params -> bool.
Variable md5_hexdigest : string -> string.

Record entry : Type := {
  data : option Data;
  expires : Z;
  query : string;
  cached_at : Z
}.

(** [len(str(v))] of an entry dict. *)
Variable str_len : entry -> Z.

Record t : Type := {
  cache : gmap string entry;
  default_ttl : Z;
  hit_count : Z;
  miss_count : Z
}.

(** [QueryCache.__init__] *)
Definition new (default_ttl : Z) : t := {|
  cache := ∅;
  default_ttl := default_ttl;
  hit_count := 0;
  miss_count := 0
|}.

(** [params or {}], serialised *)
Definition dumps_params (params : option Params) : string :=
  match params with
  | Some d => if params_is_empty d then "{}"%string else json_dumps_sorted d
  | None => "{}"%string
  end.

Definition get_cache_key (query : string) (params : option Params) : string :=
  md5_hexdigest (query +:+ dumps_params params).

(** [get]: the cache afterwards and the value returned ([None] on a miss). *)
Definition get (self : t) (query : string) (params : option Params) (now : Z)
  : t * option Data :=
  let key := get_cache_key query params in
  match cache self !! key with
  | Some e =>
      if now <? expires e then
        ({| cache := cache self; default_ttl := default_ttl self;
            hit_count := hit_count self + 1; miss_count := miss_count self |},
         data e)
      else
        ({| cache := delete key (cache self); default_ttl := default_ttl self;
            hit_count := hit_count self; miss_count := miss_count self + 1 |},
         None)
  | None =>
      ({| cache := cache self; default_ttl := default_ttl self;
          hit_count := hit_count self; miss_count := miss_count self + 1 |},
       None)
  end.

(** [ttl or self.default_ttl] *)
Definition ttl_or_default (self : t) (ttl : option Z) : Z :=
  match ttl with
  | Some n => if n =? 0 then default_ttl self else n
  | None => default_ttl self
  end.

(** [set], with the two clock readings it takes. *)
Definition set (self : t) (query : string) (data : option Data) (ttl : option Z)
    (params : option Params) (now_expires now_cached : Z) : result t :=
  let key := get_cache_key query params in
  let ttl := ttl_or_default self ttl in
  delta <- timedelta_seconds ttl ;;
  expires <- datetime_add now_expires delta ;;
  Ok {| cache := <[ key := {| data := data; expires := expires;
                              query := String.substring 0 100 query;
                              cached_at := now_cached |} ]> (cache self);
        default_ttl := default_ttl self;
        hit_count := hit_count self;
        miss_count := miss_count self |}.

Definition clear_expired (self : t) (now : Z) : t := {|
  cache := filter (fun kv => ~ (expires (snd kv) <= now)) (cache self);
  default_ttl := default_ttl self;
  hit_count := hit_count self;
  miss_count := miss_count self
|}.

(** [get_hit_rate]: a percentage. *)
Definition get_hit_rate (self : t) : result float :=
  let total := hit_count self + miss_count self in
  if total =? 0 then Ok zero
  else
    q <- int_truediv (hit_count self) total ;;
    Ok (fmul q (of_small_int 100)).

Record stats : Type := {
  entries : Z;
  hits : Z;
  misses : Z;
  hit_rate : float;
  memory_estimate : Z
}.

Definition get_stats (self : t) : result stats :=
  rate <- get_hit_rate self ;;
  Ok {| entries := Z.of_nat (size (cache self));
        hits := hit_count self;
        misses := miss_count self;
        hit_rate := rate;
        memory_estimate := map_fold (fun _ v acc => acc + str_len v) 0 (cache self) |}.

(** A lookup is a hit when the key is present and not yet expired. *)
Definition is_hit (self : t) (query : string) (params : option Params) (now : Z) : bool :=
  match cache self !! get_cache_key query params with
  | Some e => now <? expires e
  | None => false
  end.

(** The calls a client of the cache can make, and a run of them from a
    cache; a [set] that raises leaves the cache as it was. *)
Inductive call : Type :=
| CallGet (query : string) (params : option Params) (now : Z)
| CallSet (query : string) (data : option Data) (ttl : option Z)
    (params : option Params) (now_expires now_cached : Z)
| CallClearExpired (now : Z).

Definition step (self : t) (c : call) : t :=
  match c with
  | CallGet q p now => fst (get self q p now)
  | CallSet q d ttl p now_expires now_cached =>
      match set self q d ttl p now_expires now_cached with
      | Ok self' => self'
      | Raise _ => self
      end
  | CallClearExpired now => clear_expired self now
  end.

Definition run (self : t) (cs : list call) : t := fold_left step cs self.

Definition is_get (c : call) : bool :=
  match c with
  | CallGet _ _ _ => true
  | _ => false
  end.

(** The lookups of a run that hit, and those that miss. *)
Fixpoint count_hits (self : t) (cs : list call) : Z :=
  match cs with
  | [] => 0
  | c :: rest =>
      match c with
      | CallGet q p now => if is_hit self q p now then 1 else 0
      | _ => 0
      end + count_hits (step self c) rest
  end.

Fixpoint count_misses (self : t) (cs : list call) : Z :=
  match cs with
  | [] => 0
  | c :: rest =>
      match c with
      | CallGet q p now => if is_hit self q p now then 0 else 1
      | _ => 0
      end + count_misses (step self c) rest
  end.

End Cache.

Arguments data {Data} _.
Arguments expires {Data} _.
Arguments query {Data} _.
Arguments cached_at {Data} _.
Arguments cache {Data} _.
Arguments default_ttl {Data} _.
Arguments hit_count {Data} _.
Arguments miss_count {Data} _.
Arguments new {Data} default_ttl.
Arguments get_hit_rate {Data} self.

End QueryCache.

(** ** The query optimizer ([query_optimizer.py], class [QueryOptimizer]) *)

Module QueryOptimizer.

Local Open Scope string_scope.

(** [CACHE_PATTERNS.get(query_type, 3600)] *)
Definition CACHE_PATTERNS : list (string * Z) :=
  [ ("dashboard", 3600); ("report", 7200); ("historical", 86400);
    ("realtime", 300); ("funnel", 1800) ].

Fixpoint dict_get (d : list (string * Z)) (k : string) (default : Z) : Z :=
  match d with
  | [] => default
  | (k', v) :: rest => if String.eqb k k' then v else dict_get rest k default
  end.

Definition cache_ttl_of (query_type : string) : Z :=
  dict_get CACHE_PATTERNS query_type 3600.

Definition date_filter : string :=
  "WHERE date >= DATE_SUB(CURRENT_DATE(), INTERVAL 30 DAY) AND".

Definition _add_date_filter (query : string) : string :=
  if contains "WHERE" (upper query)
  then replace "WHERE" date_filter query
  else replace "FROM" "FROM" query
       +:+ " WHERE date >= DATE_SUB(CURRENT_DATE(), INTERVAL 30 DAY)".

Definition _add_limit (query : string) : string :=
  if negb (contains "LIMIT" (upper query)) then query +:+ " LIMIT 10000" else query.

(** Only prints a warning. *)
Definition _optimize_select_star (query : string) : string := query.

Definition _use_approx_functions (query : string) : string :=
  let optimized := replace "COUNT(DISTINCT" "APPROX_COUNT_DISTINCT(" query in
  replace "APPROX_COUNT_DISTINCT((" "APPROX_COUNT_DISTINCT(" optimized.

Record rule : Type := {
  name : string;
  pattern : string;
  check : string -> bool;
  action : string -> string;
  description : string
}.

Definition _load_optimization_rules : list rule :=
  [ {| name := "add_date_filter";
       pattern := "WHERE";
       check := fun q => contains "WHERE" (upper q) && negb (contains "DATE" (upper q));
       action := _add_date_filter;
       description := "Add date filter to reduce data scanned" |};
    {| name := "add_limit";
       pattern := "SELECT";
       check := fun q => contains "SELECT" (upper q) && negb (contains "LIMIT" (upper q))
                         && negb (contains "GROUP BY" (upper q));
       action := _add_limit;
       description := "Add LIMIT to prevent scanning entire table" |};
    {| name := "optimize_select_star";
       pattern := "SELECT *";
       check := fun q => contains "SELECT *" (upper q);
       action := _optimize_select_star;
       description := "Replace SELECT * with specific columns" |};
    {| name := "use_approx_functions";
       pattern := "COUNT(DISTINCT";
       check := fun q => contains "COUNT(DISTINCT" (upper q);
       action := _use_approx_functions;
       description := "Use APPROX functions for better performance" |} ].

Definition _add_query_hints (query query_type : string) : string :=
  let cache_ttl := cache_ttl_of query_type in
  let hints := [ "@cache_ttl=" +:+ str_of_int cache_ttl ] in
  let hints :=
    if String.eqb query_type "dashboard" then (hints ++ [ "@priority=INTERACTIVE" ])%list
    else if String.eqb query_type "report" then (hints ++ [ "@priority=BATCH" ])%list
    else hints in
  match hints with
  | [] => query
  | _ :: _ =>
      let hint_string := join nl (map (fun hint => "-- " +:+ hint) hints) in
      hint_string +:+ nl +:+ query
  end.

(** The loop of [optimize_query] over the rules. *)
Fixpoint apply_rules (rules : list rule) (optimized : string) (applied : list string)
  : string * list string :=
  match rules with
  | [] => (optimized, applied)
  | r :: rest =>
      if check r optimized
      then apply_rules rest (action r optimized) (applied ++ [description r])%list
      else apply_rules rest optimized applied
  end.

Definition optimize_query (query query_type : string) : string * list string :=
  let '(optimized, optimizations_applied) := apply_rules _load_optimization_rules query [] in
  (_add_query_hints optimized query_type, optimizations_applied).

(** Whether the check of the rule of a given name holds of a query. *)
Definition rule_fires (rule_name query : string) : bool :=
  existsb (fun r => String.eqb (name r) rule_name && check r query)
          _load_optimization_rules.

(** The number of queries of a list on which a test holds. *)
Definition count_queries (test : string -> bool) (queries : list string) : Z :=
  Z.of_nat (length (List.filter test queries)).

Record savings : Type := {
  estimated_reduction : Z;
  factors : list string
}.

Definition estimate_optimization_savings (original_query optimized_query : string) : savings :=
  let s0 := {| estimated_reduction := 0; factors := [] |} in
  let s1 :=
    if contains "date >=" (lower optimized_query)
       && negb (contains "date >=" (lower original_query))
    then {| estimated_reduction := (estimated_reduction s0 + 90)%Z;
            factors := (factors s0 ++ ["Date partitioning: -90%"])%list |}
    else s0 in
  let s2 :=
    if contains "APPROX_" optimized_query && negb (contains "APPROX_" original_query)
    then {| estimated_reduction := (estimated_reduction s1 + 20)%Z;
            factors := (factors s1 ++ ["Approximate functions: -20%"])%list |}
    else s1 in
  let s3 :=
    if contains "LIMIT" optimized_query && negb (contains "LIMIT" original_query)
    then {| estimated_reduction := (estimated_reduction s2 + 10)%Z;
            factors := (factors s2 ++ ["Row limit: -10%"])%list |}
    else s2 in
  {| estimated_reduction := Z.min (estimated_reduction s3) 95; factors := factors s3 |}.

(** The counts of [analyze_query_patterns]. *)
Record patterns : Type := {
  missing_date_filter : Z;
  select_star : Z;
  missing_limit : Z;
  exact_distinct : Z;
  full_table_scan : Z
}.

Definition no_patterns : patterns := {|
  missing_date_filter := 0; select_star := 0; missing_limit := 0;
  exact_distinct := 0; full_table_scan := 0
|}.

(** One turn of the loop over the queries. *)
Definition count_query (p : patterns) (query : string) : patterns :=
  let upper_query := upper query in
  let incr (b : bool) (n : Z) : Z := if b then (n + 1)%Z else n in
  {| missing_date_filter :=
       incr (negb (contains "WHERE" upper_query) || negb (contains "DATE" upper_query))
            (missing_date_filter p);
     select_star := incr (contains "SELECT *" upper_query) (select_star p);
     missing_limit :=
       incr (negb (contains "LIMIT" upper_query) && negb (contains "GROUP BY" upper_query))
            (missing_limit p);
     exact_distinct := incr (contains "COUNT(DISTINCT" upper_query) (exact_distinct p);
     full_table_scan := incr (negb (contains "WHERE" upper_query)) (full_table_scan p) |}.

Record analysis : Type := {
  total_queries : Z;
  analysis_patterns : patterns;
  recommendations : list string
}.

Definition analyze_query_patterns (queries : list string) : analysis :=
  let total := Z.of_nat (length queries) in
  let p := fold_left count_query queries no_patterns in
  let r1 :=
    if int_gt_float (missing_date_filter p) (fmul (of_small_int total) (literal 3 1))
    then ["30% of queries missing date filters - add partition filters to reduce costs by 90%"]
    else [] in
  let r2 :=
    if int_gt_float (select_star p) (fmul (of_small_int total) (literal 2 1))
    then (r1 ++ ["20% of queries use SELECT * - specify columns to reduce data transfer"])%list
    else r1 in
  let r3 :=
    if (exact_distinct p >? 0)%Z
    then (r2 ++ [str_of_int (exact_distinct p)
                 +:+ " queries use exact COUNT(DISTINCT) - consider APPROX functions"])%list
    else r2 in
  {| total_queries := total; analysis_patterns := p; recommendations := r3 |}.

Section Execute.

Variables Params Data : Type.
Variable json_dumps_sorted : Params -> string.
Variable params_is_empty : Params -> bool.
Variable md5_hexdigest : string -> string.

(** [get_cached_or_execute] on the optimizer's cache: the cache
    afterwards and what the call returns or raises. [executor_func] is the
    caller's function; the three clock readings are those of [get] and
    [set]. *)
Definition get_cached_or_execute (self : QueryCache.t Data) (query : string)
    (executor_func : string -> result (option Data)) (query_type : string)
    (params : option Params) (now_get now_expires now_cached : Z)
  : QueryCache.t Data * result (option Data) :=
  let '(self1, cached_result) :=
    QueryCache.get Params Data json_dumps_sorted params_is_empty md5_hexdigest
      self query params now_get in
  match cached_result with
  | Some v => (self1, Ok (Some v))
  | None =>
      let '(optimized_query, _) := optimize_query query query_type in
      match executor_func optimized_query with
      | Raise e => (self1, Raise e)
      | Ok res =>
          let cache_ttl := cache_ttl_of query_type in
          match QueryCache.set Params Data json_dumps_sorted params_is_empty md5_hexdigest
                  self1 query res (Some cache_ttl) params now_expires now_cached with
          | Raise e => (self1, Raise e)
          | Ok self2 => (self2, Ok res)
          end
      end
  end.

End Execute.

End QueryOptimizer.

(** ** The cost-controlled execution path ([bigquery_optimized.py]) *)

Module OptimizedBigQueryManager.

Local Open Scope string_scope.

Definition MAX_BYTES_PER_QUERY : Z := 100000000.
Definition MAX_QUERIES_PER_DAY : Z := 1000.
Definition MAX_DAILY_COST : float := literal 500 2.
Definition COST_PER_TB : float := literal 500 2.

(** The manager's own usage counters. *)
Record manager : Type := {
  queries_today : Z;
  bytes_processed_today : Z
}.

(** [OptimizedBigQueryManager.__init__] *)
Definition init : manager := {| queries_today := 0; bytes_processed_today := 0 |}.

(** The dict of [estimate_query_cost]; the error dict has no
    ['cost_warning'] key. *)
Record cost_estimate : Type := {
  error : option py_exn;
  bytes_processed : Z;
  estimated_cost : float;
  cost_warning : option bool;
  within_limit : bool
}.

Record cost_row : Type := {
  row_query_type : string;
  row_bytes_processed : Z;
  row_bytes_billed : Z;
  row_estimated_cost : float;
  row_query_text : string;
  row_duration_ms : Z
}.

Section Client.

Variable Rows : Type.

(** What a finished query job reports. *)
Record query_job : Type := {
  results : Rows;
  total_bytes_billed : option Z;
  total_bytes_processed : option Z
}.

(** The warehouse client: the dry run of a query gives the bytes it would
    process, the execution of a query gives its job; both may raise.
    [load_cost_row] is the load of a row into the cost-tracking table
    with its [try]/[except]/[finally]: [Ok] when the block completes (a
    failed load is only printed), [Raise] when an exception leaves it. *)
Variable dry_run : string -> result Z.
Variable run_query : string -> result query_job.
Variable load_cost_row : cost_row -> result unit.

Definition estimate_query_cost (query : string) : cost_estimate :=
  let attempt :=
    bytes <- dry_run query ;;
    q <- int_truediv bytes 1000000000000 ;;
    let cost := fmul q COST_PER_TB in
    Ok {| error := None;
          bytes_processed := bytes;
          estimated_cost := cost;
          cost_warning := Some (fgt cost (literal 10 2));
          within_limit := (bytes <=? MAX_BYTES_PER_QUERY)%Z |} in
  match attempt with
  | Ok d => d
  | Raise e =>
      {| error := Some e;
         bytes_processed := 0;
         estimated_cost := zero;
         cost_warning := None;
         within_limit := false |}
  end.

Definition _add_query_optimizations (query : string) : string :=
  let query :=
    if contains "WHERE" (upper query) && negb (contains "DATE" (upper query))
    then replace "WHERE" QueryOptimizer.date_filter query
    else query in
  if contains "SELECT" (upper query) && negb (contains "LIMIT" (upper query))
     && negb (contains "GROUP BY" (upper query))
  then query +:+ " LIMIT 10000"
  else query.

(** [x or 0] *)
Definition or_zero (x : option Z) : Z :=
  match x with
  | Some n => n
  | None => 0
  end.

(** [_track_query_cost]: the rows handed to the load, and how the call
    ends. *)
Definition _track_query_cost (job : query_job) (query_type query_text : string)
    (duration_ms : Z) : list cost_row * result unit :=
  let bytes_billed := or_zero (total_bytes_billed job) in
  let bytes_processed := or_zero (total_bytes_processed job) in
  match int_truediv bytes_billed 1000000000000 with
  | Raise e => ([], Raise e)
  | Ok q =>
      let row := {| row_query_type := query_type;
                    row_bytes_processed := bytes_processed;
                    row_bytes_billed := bytes_billed;
                    row_estimated_cost := fmul q COST_PER_TB;
                    row_query_text := query_text;
                    row_duration_ms := duration_ms |} in
      ([row], load_cost_row row)
  end.

(** [execute_query_with_cost_control]: the manager afterwards, the cost
    rows handed to the load, and what the call returns or raises.
    [duration_ms] is the duration the code measures on the clock. *)
Definition execute_query_with_cost_control (self : manager) (query query_type : string)
    (duration_ms : Z) : manager * list cost_row * result Rows :=
  if (queries_today self >=? MAX_QUERIES_PER_DAY)%Z
  then (self, [], Raise (DailyQueryLimitExceeded MAX_QUERIES_PER_DAY))
  else
    let cost_estimate := estimate_query_cost query in
    if negb (within_limit cost_estimate)
    then (self, [], Raise (QueryExceedsByteLimit (bytes_processed cost_estimate)))
    else
      let optimized_query := _add_query_optimizations query in
      match run_query optimized_query with
      | Raise e => (self, [], Raise e)
      | Ok job =>
          match _track_query_cost job query_type
                  (String.substring 0 500 optimized_query) duration_ms with
          | (rows, Raise e) => (self, rows, Raise e)
          | (rows, Ok _) =>
              ({| queries_today := (queries_today self + 1)%Z;
                  bytes_processed_today :=
                    (bytes_processed_today self + or_zero (total_bytes_billed job))%Z |},
               rows, Ok (results job))
          end
      end.

(** A sequence of executions [(query, query_type, duration_ms)], run in
    order on the manager. *)
Definition run_executions (self : manager) (calls : list (string * string * Z)) : manager :=
  fold_left
    (fun m '(query, query_type, duration_ms) =>
       fst (fst (execute_query_with_cost_control m query query_type duration_ms)))
    calls self.

End Client.

End OptimizedBigQueryManager.

(** ** Sample configurations and runs *)

Module Scenario.

Import CostMonitor.

(** The default thresholds with a byte limit of 100 GB, under which the
    cost rules, not the size rule, decide the queries below. *)
Definition roomy_thresholds : CostThresholds := {|
  hourly_limit := hourly_limit default_thresholds;
  daily_limit := daily_limit default_thresholds;
  monthly_limit := monthly_limit default_thresholds;
  query_cost_warning := query_cost_warning default_thresholds;
  query_cost_limit := query_cost_limit default_thresholds;
  bytes_per_query_limit := 100000000000;
  queries_per_hour_limit := queries_per_hour_limit default_thresholds;
  queries_per_day_limit := queries_per_day_limit default_thresholds
|}.

(** A day on which $4.80 have been spent. *)
Definition spent_480 : monitor := {|
  thresholds := roomy_thresholds;
  current_hour_queries := 1;
  current_day_queries := 1;
  current_day_cost := literal 480 2;
  current_month_cost := literal 480 2;
  emergency_stop := false
|}.

(** $149 on one day, a day rollover, then $2 on the next day: the second
    usage takes the month over its $150 limit while the day is within its
    own limits. *)
Definition monthly_breach : list call :=
  [ UpdateUsage 0 (literal 14900 2); ResetDaily; UpdateUsage 0 (literal 200 2) ].

End Scenario.

(** A cache instance for sample runs: no parameters, integer payloads, and
    the key text itself standing for its digest. *)

Module SampleCache.

Definition json_dumps_sorted (p : unit) : string := "{}".
Definition params_is_empty (p : unit) : bool := true.
Definition md5_hexdigest (s : string) : string := s.
Definition str_len (e : QueryCache.entry Z) : Z := 0.

Definition get := QueryCache.get unit Z json_dumps_sorted params_is_empty md5_hexdigest.
Definition set := QueryCache.set unit Z json_dumps_sorted params_is_empty md5_hexdigest.
Definition run := QueryCache.run unit Z json_dumps_sorted params_is_empty md5_hexdigest.
Definition get_stats := QueryCache.get_stats Z str_len.

(** One entry stored, then one lookup that hits and one that misses. *)
Definition one_hit_one_miss : list (QueryCache.call unit Z) :=
  [ QueryCache.CallSet unit Z "q" (Some 7) None None 0 0;
    QueryCache.CallGet unit Z "q" None 1;
    QueryCache.CallGet unit Z "r" None 2 ].

End SampleCache.

(** A warehouse for sample runs: every dry run reports 1000 bytes, every
    execution times out, every load of a cost row succeeds. *)

Module SampleWarehouse.

Definition dry_run (q : string) : result Z := Ok 1000.

Definition run_query (q : string) : result (OptimizedBigQueryManager.query_job (list Z)) :=
  Raise (ExternalError "timeout").

Definition load_cost_row (r : OptimizedBigQueryManager.cost_row) : result unit := Ok tt.

Definition executor_func (q : string) : result (option Z) :=
  Raise (ExternalError "timeout").

Definition execute_query_with_cost_control :=
  OptimizedBigQueryManager.execute_query_with_cost_control (list Z) dry_run run_query
    load_cost_row.

Definition get_cached_or_execute :=
  QueryOptimizer.get_cached_or_execute unit Z SampleCache.json_dumps_sorted
    SampleCache.params_is_empty SampleCache.md5_hexdigest.

End SampleWarehouse.

(** Further sample states: a cache holding one entry, a monitor whose daily
    limit is zero, and warehouses whose dry run fails, whose dry run reports
    200 MB, and whose query succeeds while the load of the cost row fails. *)

Module SampleRuns.

Definition stored : QueryCache.t Z :=
  SampleCache.run (QueryCache.new 3600)
    [ QueryCache.CallSet unit Z "q" (Some 7) (Some 60) None 0 0 ].

Definition stored_entry : QueryCache.entry Z := {|
  QueryCache.data := Some 7;
  QueryCache.expires := 60000000;
  QueryCache.query := "q";
  QueryCache.cached_at := 0
|}.

Definition stored_none : QueryCache.t Z :=
  SampleCache.run (QueryCache.new 3600)
    [ QueryCache.CallSet unit Z "q" None (Some 60) None 0 0 ].

Definition stored_none_entry : QueryCache.entry Z := {|
  QueryCache.data := None;
  QueryCache.expires := 60000000;
  QueryCache.query := "q";
  QueryCache.cached_at := 0
|}.

Definition executor_ok (q : string) : result (option Z) := Ok (Some 7).

Definition zero_limit_monitor : CostMonitor.monitor := {|
  CostMonitor.thresholds := {|
    CostMonitor.hourly_limit := literal 25 2;
    CostMonitor.daily_limit := zero;
    CostMonitor.monthly_limit := literal 15000 2;
    CostMonitor.query_cost_warning := literal 10 2;
    CostMonitor.query_cost_limit := literal 100 2;
    CostMonitor.bytes_per_query_limit := 100000000;
    CostMonitor.queries_per_hour_limit := 100;
    CostMonitor.queries_per_day_limit := 1000
  |};
  CostMonitor.current_hour_queries := 0;
  CostMonitor.current_day_queries := 0;
  CostMonitor.current_day_cost := zero;
  CostMonitor.current_month_cost := zero;
  CostMonitor.emergency_stop := false
|}.

Definition dry_run_fails (q : string) : result Z := Raise (ExternalError "dry run").

Definition dry_run_big (q : string) : result Z := Ok 200000000.

Definition job_ok : OptimizedBigQueryManager.query_job (list Z) := {|
  OptimizedBigQueryManager.results := [1; 2];
  OptimizedBigQueryManager.total_bytes_billed := Some 10485760;
  OptimizedBigQueryManager.total_bytes_processed := Some 1000
|}.

Definition run_query_ok (q : string)
  : result (OptimizedBigQueryManager.query_job (list Z)) := Ok job_ok.

Definition load_fails (r : OptimizedBigQueryManager.cost_row) : result unit :=
  Raise UnboundLocalError.

Definition capped : OptimizedBigQueryManager.manager := {|
  OptimizedBigQueryManager.queries_today := 1000;
  OptimizedBigQueryManager.bytes_processed_today := 0
|}.

End SampleRuns.

(** * Properties *)

(** ** Rounding of binary64 values

    What the properties below need of the float operations: when a quotient
    of two ints is representable, and which sign it has. *)

Section FloatFacts.

Lemma digits2_pos_size (p : positive) : digits2_pos p = Pos.size p.
Proof. induction p; simpl; congruence. Qed.

Lemma Zdigits2_log2 (p : positive) : Zdigits2 (Zpos p) = Z.succ (Z.log2 (Zpos p)).
Proof.
  simpl. rewrite digits2_pos_size.
  destruct p; simpl; rewrite ?Pos2Z.inj_succ; reflexivity.
Qed.

Lemma Zdigits2_nonneg (m : Z) : 0 <= Zdigits2 m.
Proof. destruct m; simpl; lia. Qed.

Lemma Zdigits2_bounds (m : Z) :
  0 < m -> 2 ^ (Zdigits2 m - 1) <= m < 2 ^ Zdigits2 m.
Proof.
  intros Hm. destruct m as [|p|p]; try lia.
  rewrite Zdigits2_log2.
  replace (Z.succ (Z.log2 (Zpos p)) - 1) with (Z.log2 (Zpos p)) by lia.
  apply Z.log2_spec. lia.
Qed.

Lemma Zdigits2_le (m k : Z) : 0 <= m -> 0 <= k -> m < 2 ^ k -> Zdigits2 m <= k.
Proof.
  intros Hm Hk Hlt. destruct m as [|p|p]; try lia; [simpl; lia|].
  rewrite Zdigits2_log2.
  apply Z.log2_lt_pow2 in Hlt; lia.
Qed.

Lemma shr_1_div2 (mrs : shr_record) :
  0 <= shr_m mrs -> shr_m (shr_1 mrs) = shr_m mrs / 2.
Proof.
  destruct mrs as [m r s]. simpl. intros Hm.
  rewrite <- Z.div2_div.
  destruct m as [|[p|p|]|p]; try reflexivity; lia.
Qed.

Lemma iter_shr_1_div (p : positive) :
  forall mrs, 0 <= shr_m mrs ->
    shr_m (SpecFloat.iter_pos shr_1 p mrs) = shr_m mrs / 2 ^ Zpos p.
Proof.
  induction p as [p IH|p IH|]; intros mrs Hm; simpl SpecFloat.iter_pos.
  - assert (H1 : 0 <= shr_m (shr_1 mrs)).
    { rewrite shr_1_div2 by assumption. apply Z.div_pos; lia. }
    assert (H2 : 0 <= shr_m (SpecFloat.iter_pos shr_1 p (shr_1 mrs))).
    { rewrite IH by assumption. apply Z.div_pos; [assumption|]. apply Z.pow_pos_nonneg; lia. }
    rewrite IH, IH, shr_1_div2 by assumption.
    assert (Hp : 0 < 2 ^ Zpos p) by (apply Z.pow_pos_nonneg; lia).
    rewrite !Zdiv_Zdiv by lia. f_equal.
    replace (Zpos p~1) with (1 + Zpos p + Zpos p) by lia.
    rewrite !Z.pow_add_r by lia. change (2 ^ 1) with 2. ring.
  - assert (H2 : 0 <= shr_m (SpecFloat.iter_pos shr_1 p mrs)).
    { rewrite IH by assumption. apply Z.div_pos; [assumption|]. apply Z.pow_pos_nonneg; lia. }
    rewrite IH, IH by assumption.
    assert (Hp : 0 < 2 ^ Zpos p) by (apply Z.pow_pos_nonneg; lia).
    rewrite Zdiv_Zdiv by lia. f_equal.
    replace (Zpos p~0) with (Zpos p + Zpos p) by lia.
    rewrite Z.pow_add_r by lia. reflexivity.
  - rewrite shr_1_div2 by assumption. reflexivity.
Qed.

Lemma fexp_F (e : Z) : fexp 53 1024 e = F e.
Proof. reflexivity. Qed.

Lemma shr_spec (mrs : shr_record) (e n : Z) :
  0 <= shr_m mrs ->
  snd (shr mrs e n) = e + Z.max 0 n /\
  shr_m (fst (shr mrs e n)) = shr_m mrs / 2 ^ Z.max 0 n.
Proof.
  intros Hm. destruct n as [|p|p]; simpl.
  - split; [lia|]. now rewrite Z.div_1_r.
  - split; [lia|]. now apply iter_shr_1_div.
  - split; [lia|]. now rewrite Z.div_1_r.
Qed.

Lemma shr_m_of_loc (m : Z) (l : location) : shr_m (shr_record_of_loc m l) = m.
Proof. destruct l as [|[]]; reflexivity. Qed.

Lemma shr_fexp_spec (m e : Z) (l : location) :
  0 <= m ->
  snd (shr_fexp 53 1024 m e l) = e + Z.max 0 (F (Zdigits2 m + e) - e) /\
  shr_m (fst (shr_fexp 53 1024 m e l)) = m / 2 ^ Z.max 0 (F (Zdigits2 m + e) - e).
Proof.
  intros Hm. unfold shr_fexp. rewrite fexp_F.
  destruct (shr_spec (shr_record_of_loc m l) e (F (Zdigits2 m + e) - e)) as [H1 H2].
  - now rewrite shr_m_of_loc.
  - rewrite shr_m_of_loc in H2. now split.
Qed.

Lemma round_nearest_even_bounds (m : Z) (l : location) :
  m <= round_nearest_even m l <= m + 1.
Proof. destruct l as [|[]]; simpl; try lia. destruct (Z.even m); lia. Qed.

(** A rounding is two right shifts around the rounding of the mantissa. *)
Lemma binary_round_aux_spec (s : bool) (mx ex : Z) (lx : location) :
  0 <= mx ->
  exists mr : Z,
    let n1 := Z.max 0 (F (Zdigits2 mx + ex) - ex) in
    let e1 := ex + n1 in
    let n2 := Z.max 0 (F (Zdigits2 mr + e1) - e1) in
    mx / 2 ^ n1 <= mr <= mx / 2 ^ n1 + 1 /\
    binary_round_aux 53 1024 s mx ex lx =
      match mr / 2 ^ n2 with
      | Z0 => S754_zero s
      | Zpos m => if e1 + n2 <=? 971 then S754_finite s m (e1 + n2) else S754_infinity s
      | Zneg _ => S754_nan
      end.
Proof.
  intros Hm. unfold binary_round_aux.
  destruct (shr_fexp_spec mx ex lx Hm) as [He1 Hm1].
  destruct (shr_fexp 53 1024 mx ex lx) as [mrs1 e1] eqn:E1. simpl in He1, Hm1.
  set (mr := round_nearest_even (shr_m mrs1) (loc_of_shr_record mrs1)).
  assert (Hmr : shr_m mrs1 <= mr <= shr_m mrs1 + 1) by apply round_nearest_even_bounds.
  assert (H0 : 0 <= shr_m mrs1).
  { rewrite Hm1. apply Z.div_pos; [assumption|]. apply Z.pow_pos_nonneg; lia. }
  destruct (shr_fexp_spec mr e1 loc_Exact ltac:(lia)) as [He2 Hm2].
  destruct (shr_fexp 53 1024 mr e1 loc_Exact) as [mrs2 e2] eqn:E2. simpl in He2, Hm2.
  exists mr. cbv zeta. rewrite <- He1, <- Hm1. split; [exact Hmr|].
  rewrite Hm2, He2. reflexivity.
Qed.

Lemma pow2_pos (k : Z) : 0 <= k -> 0 < 2 ^ k.
Proof. intros. apply Z.pow_pos_nonneg; lia. Qed.

Lemma pow2_split (a b : Z) : 0 <= a -> 0 <= b -> 2 ^ a * 2 ^ b = 2 ^ (a + b).
Proof. intros. now rewrite Z.pow_add_r. Qed.

Lemma Zdigits2_pos (m : Z) : 0 < m -> 1 <= Zdigits2 m.
Proof. destruct m; simpl; lia. Qed.

Lemma Zdigits2_gt (m k : Z) : 0 <= k -> 2 ^ k <= m -> k < Zdigits2 m.
Proof.
  intros Hk Hle.
  assert (Hm : 0 < m) by (pose proof (pow2_pos k Hk); lia).
  destruct (Zdigits2_bounds m Hm) as [_ Hlt].
  apply (Z.pow_lt_mono_r_iff 2); [lia|apply Zdigits2_nonneg|lia].
Qed.

(** A rounding does not overflow when the value is below [2^1023]. *)
Lemma binary_round_aux_no_overflow (s : bool) (mx ex : Z) (lx : location) :
  0 <= mx -> ex <= 971 -> mx < 2 ^ (1023 - ex) ->
  binary_round_aux 53 1024 s mx ex lx = S754_zero s \/
  exists m e, binary_round_aux 53 1024 s mx ex lx = S754_finite s m e /\ -1074 <= e.
Proof.
  intros Hm Hex Hlt.
  destruct (binary_round_aux_spec s mx ex lx Hm) as [mr [Hmr ->]].
  cbv zeta in Hmr.
  assert (Hd : Zdigits2 mx <= 1023 - ex) by (apply Zdigits2_le; lia).
  set (n1 := Z.max 0 (F (Zdigits2 mx + ex) - ex)) in *.
  assert (Hn1 : 0 <= n1 /\ ex + n1 <= 971) by (unfold n1, F; lia).
  assert (Hm1 : 0 <= mx / 2 ^ n1 < 2 ^ (1023 - (ex + n1))).
  { split.
    - apply Z.div_pos; [assumption|apply pow2_pos; lia].
    - apply Z.div_lt_upper_bound; [apply pow2_pos; lia|].
      rewrite pow2_split by lia. replace (n1 + (1023 - (ex + n1))) with (1023 - ex) by lia.
      assumption. }
  assert (Hmr2 : mr < 2 ^ (1024 - (ex + n1))).
  { replace (1024 - (ex + n1)) with (Z.succ (1023 - (ex + n1))) by lia.
    rewrite Z.pow_succ_r by lia. lia. }
  assert (Hdr : Zdigits2 mr <= 1024 - (ex + n1)) by (apply Zdigits2_le; lia).
  set (n2 := Z.max 0 (F (Zdigits2 mr + (ex + n1)) - (ex + n1))) in *.
  assert (Hn2 : 0 <= n2 /\ ex + n1 + n2 <= 971) by (unfold n2, F; lia).
  assert (Hm2 : 0 <= mr / 2 ^ n2) by (apply Z.div_pos; [lia|apply pow2_pos; lia]).
  destruct (mr / 2 ^ n2) as [|m|m]; [now left| |lia].
  right. exists m, (ex + n1 + n2).
  destruct (Z.leb_spec (ex + n1 + n2) 971); [|lia].
  split; [reflexivity|]. unfold n1, F. lia.
Qed.

(** A rounding does not underflow to zero when the value is at least
    [2^-1075]. *)
Lemma binary_round_aux_nonzero (s : bool) (mx ex : Z) (lx : location) :
  0 < mx -> -1074 < Zdigits2 mx + ex ->
  binary_round_aux 53 1024 s mx ex lx = S754_infinity s \/
  exists m e, binary_round_aux 53 1024 s mx ex lx = S754_finite s m e /\ -1074 <= e.
Proof.
  intros Hm Hd.
  destruct (binary_round_aux_spec s mx ex lx ltac:(lia)) as [mr [Hmr ->]].
  cbv zeta in Hmr.
  pose proof (Zdigits2_pos mx Hm) as Hd1.
  destruct (Zdigits2_bounds mx Hm) as [Hlo _].
  set (d := Zdigits2 mx) in *.
  set (n1 := Z.max 0 (F (d + ex) - ex)) in *.
  assert (Hn1 : 0 <= n1 <= d - 1) by (unfold n1, F; lia).
  assert (Hm1 : 2 ^ (d - 1 - n1) <= mx / 2 ^ n1).
  { apply Z.div_le_lower_bound; [apply pow2_pos; lia|].
    rewrite pow2_split by lia. replace (n1 + (d - 1 - n1)) with (d - 1) by lia.
    assumption. }
  assert (Hmr1 : 2 ^ (d - 1 - n1) <= mr) by lia.
  assert (Hdr : d - 1 - n1 < Zdigits2 mr) by (apply Zdigits2_gt; lia).
  assert (Hmr0 : 0 < mr) by (pose proof (pow2_pos (d - 1 - n1)); lia).
  destruct (Zdigits2_bounds mr Hmr0) as [Hlor _].
  set (dr := Zdigits2 mr) in *.
  set (n2 := Z.max 0 (F (dr + (ex + n1)) - (ex + n1))) in *.
  assert (Hn2 : 0 <= n2 <= dr - 1) by (unfold n2, F; lia).
  assert (Hm2 : 2 ^ (dr - 1 - n2) <= mr / 2 ^ n2).
  { apply Z.div_le_lower_bound; [apply pow2_pos; lia|].
    rewrite pow2_split by lia. replace (n2 + (dr - 1 - n2)) with (dr - 1) by lia.
    assumption. }
  pose proof (pow2_pos (dr - 1 - n2) ltac:(lia)) as Hp.
  destruct (mr / 2 ^ n2) as [|m|m]; [lia| |lia].
  destruct (ex + n1 + n2 <=? 971); [right|now left].
  exists m, (ex + n1 + n2). split; [reflexivity|]. unfold n1, F. lia.
Qed.

Lemma SFdiv_core_ints (pa pb : positive) :
  let e' := Z.min (F (Zdigits2 (Zpos pa) - Zdigits2 (Zpos pb))) 0 in
  exists l, SFdiv_core_binary 53 1024 (Zpos pa) 0 (Zpos pb) 0 =
            (Zpos pa * 2 ^ (- e') / Zpos pb, e', l).
Proof.
  intros e'. unfold SFdiv_core_binary.
  rewrite !Z.add_0_r, fexp_F. change (0 - 0) with 0. fold e'.
  assert (He : e' <= 0) by (unfold e'; lia).
  set (m' := match 0 - e' with Z0 => Zpos pa | Zpos _ => Z.shiftl (Zpos pa) (0 - e') | Zneg _ => 0 end).
  assert (Hm' : m' = Zpos pa * 2 ^ (- e')).
  { unfold m'. replace (0 - e') with (- e') by lia.
    destruct (- e') as [|p|p] eqn:Es; [now rewrite Z.mul_1_r| |lia].
    now rewrite Z.shiftl_mul_pow2. }
  rewrite <- Hm'. unfold Z.div.
  destruct (Z.div_eucl m' (Zpos pb)) as [q r]. eexists. reflexivity.
Qed.

Lemma raw_quotient_no_overflow (sa sb : bool) (pa pb : positive) :
  Zpos pa < 2 ^ 1023 * Zpos pb ->
  raw_quotient sa pa sb pb = S754_zero (xorb sa sb) \/
  exists m e, raw_quotient sa pa sb pb = S754_finite (xorb sa sb) m e /\ -1074 <= e.
Proof.
  intros Hlt. unfold raw_quotient, prec, emax, SFdiv.
  destruct (SFdiv_core_ints pa pb) as [l ->]. cbv zeta.
  set (e' := Z.min (F (Zdigits2 (Zpos pa) - Zdigits2 (Zpos pb))) 0).
  assert (He : e' <= 0) by (unfold e'; lia).
  pose proof (pow2_pos (- e') ltac:(lia)) as Hp.
  apply binary_round_aux_no_overflow; [|lia|].
  - apply Z.div_pos; lia.
  - apply Z.div_lt_upper_bound; [lia|].
    replace (1023 - e') with (1023 + - e') by lia.
    rewrite <- pow2_split by lia. nia.
Qed.

Lemma raw_quotient_nonzero (sa sb : bool) (pa pb : positive) :
  Zdigits2 (Zpos pb) - Zdigits2 (Zpos pa) <= 1021 ->
  raw_quotient sa pa sb pb = S754_infinity (xorb sa sb) \/
  exists m e, raw_quotient sa pa sb pb = S754_finite (xorb sa sb) m e /\ -1074 <= e.
Proof.
  intros Hd. unfold raw_quotient, prec, emax, SFdiv.
  destruct (SFdiv_core_ints pa pb) as [l ->]. cbv zeta.
  destruct (Zdigits2_bounds (Zpos pa) ltac:(lia)) as [Hlo _].
  destruct (Zdigits2_bounds (Zpos pb) ltac:(lia)) as [_ Hhi].
  pose proof (Zdigits2_pos (Zpos pa) ltac:(lia)) as Hd1.
  pose proof (Zdigits2_pos (Zpos pb) ltac:(lia)) as Hd2.
  set (d1 := Zdigits2 (Zpos pa)) in *. set (d2 := Zdigits2 (Zpos pb)) in *.
  set (e' := Z.min (F (d1 - d2)) 0).
  assert (He : e' <= 0 /\ 52 <= d1 - 1 - e' - d2) by (unfold e', F; lia).
  set (k := d1 - 1 - e' - d2) in *.
  pose proof (pow2_pos (- e') ltac:(lia)) as Hp.
  pose proof (pow2_pos k ltac:(lia)) as Hk.
  assert (Hq : 2 ^ k <= Zpos pa * 2 ^ (- e') / Zpos pb).
  { apply Z.div_le_lower_bound; [lia|].
    assert (H1 : 2 ^ d2 * 2 ^ k = 2 ^ (d1 - 1) * 2 ^ (- e')).
    { rewrite !pow2_split by lia. f_equal. unfold k. lia. }
    nia. }
  apply binary_round_aux_nonzero; [lia|].
  pose proof (Zdigits2_gt _ k ltac:(lia) Hq). unfold e', F in *. lia.
Qed.

End FloatFacts.

(** ** Quotients of ints and the cost estimate *)

Section EstimateFacts.

Import CostMonitor.

Lemma int_truediv_ok (a b : Z) :
  b <> 0 -> Z.abs a < 2 ^ 1023 * Z.abs b -> exists q, int_truediv a b = Ok q.
Proof.
  intros Hb Hlt. unfold int_truediv.
  destruct b as [|pb|pb]; [lia| |]; destruct a as [|pa|pa]; eauto;
    match goal with
    | |- context [raw_quotient ?sa pa ?sb pb] =>
        destruct (raw_quotient_no_overflow sa sb pa pb ltac:(lia)) as [->|[m [e [-> _]]]]
    end; simpl; eauto.
Qed.

Lemma int_truediv_negative (pa pb : positive) :
  Zpos pa < 2 ^ 1023 * Zpos pb ->
  Zdigits2 (Zpos pb) - Zdigits2 (Zpos pa) <= 1021 ->
  exists m e, int_truediv (Zneg pa) (Zpos pb) = Ok (S754_finite true m e) /\ -1074 <= e.
Proof.
  intros Hlt Hd. unfold int_truediv.
  destruct (raw_quotient_nonzero true false pa pb Hd) as [Hinf|[m [e [Hq He]]]].
  - destruct (raw_quotient_no_overflow true false pa pb Hlt) as [Hz|[m [e [Hq _]]]];
      congruence.
  - rewrite Hq. simpl. eauto.
Qed.

Lemma fmul_finite_nonzero (sx sy : bool) (mx my : positive) (ex ey : Z) :
  -1074 < Zdigits2 (Zpos (mx * my)) + (ex + ey) ->
  fmul (S754_finite sx mx ex) (S754_finite sy my ey) = S754_infinity (xorb sx sy) \/
  exists m e, fmul (S754_finite sx mx ex) (S754_finite sy my ey)
              = S754_finite (xorb sx sy) m e.
Proof.
  intros Hd. unfold fmul, prec, emax, SFmul.
  destruct (binary_round_aux_nonzero (xorb sx sy) (Zpos (mx * my)) (ex + ey) loc_Exact
              ltac:(lia) Hd) as [->|[m [e [-> _]]]]; eauto.
Qed.

Lemma five_dollars : literal 500 2 = S754_finite false 5629499534213120 (-50).
Proof. vm_compute. reflexivity. Qed.

(** A negative byte count gets a strictly negative estimate. *)
Lemma estimated_cost_negative (b : Z) :
  - 2 ^ 1023 < b < 0 ->
  exists c, estimated_cost b = Ok c /\ flt c zero = true /\ fgt c (literal 10 2) = false.
Proof.
  intros [Hlo Hneg]. destruct b as [|p|p]; try lia.
  destruct (int_truediv_negative p 1000000000000) as [m [e [Hq He]]].
  - assert (0 < 2 ^ 1023) by (apply Z.pow_pos_nonneg; lia). lia.
  - pose proof (Zdigits2_pos (Zpos p) ltac:(lia)).
    change (Zdigits2 1000000000000) with 40. lia.
  - unfold estimated_cost. rewrite five_dollars, Hq. cbn [bind].
    destruct (fmul_finite_nonzero true false m 5629499534213120 e (-50)) as [->|[m' [e' ->]]].
    + assert (H52 : 52 < Zdigits2 (Zpos (m * 5629499534213120))).
      { apply Zdigits2_gt; [lia|]. change (2 ^ 52) with 4503599627370496. lia. }
      lia.
    + eexists. repeat split.
    + eexists. repeat split.
Qed.

(** Every byte count of at most 1023 bits gets an estimate. *)
Lemma estimated_cost_ok (b : Z) :
  Z.abs b < 2 ^ 1023 -> exists c, estimated_cost b = Ok c.
Proof.
  intros Hb. unfold estimated_cost.
  destruct (int_truediv_ok b 1000000000000) as [q ->]; [lia| |simpl; eauto].
  assert (0 < 2 ^ 1023) by (apply Z.pow_pos_nonneg; lia). lia.
Qed.

End EstimateFacts.

(** ** The cost monitor *)

Section CostMonitorFacts.

Import CostMonitor Scenario.

Lemma check_limits_keeps_stop (self : monitor) :
  emergency_stop self = true -> emergency_stop (fst (_check_limits self)) = true.
Proof.
  intros H. unfold _check_limits.
  destruct (current_day_queries self >? _); cbn [emergency_stop set_emergency_stop fst current_day_cost current_month_cost];
    destruct (fgt (current_day_cost self) _); cbn [emergency_stop set_emergency_stop fst current_day_cost current_month_cost];
    destruct (fgt (current_month_cost self) _); cbn [emergency_stop set_emergency_stop fst]; auto.
Qed.

Lemma step_keeps_stop (self : monitor) (c : call) :
  is_daily_reset c = false -> emergency_stop self = true ->
  emergency_stop (step self c) = true.
Proof.
  destruct c; simpl; intros Hc H; try assumption; try discriminate.
  unfold update_usage. now apply check_limits_keeps_stop.
Qed.

(** C1 (fails on the code): with the emergency-stop flag set,
    [check_query_cost] is expected to reject every request. The flag is
    never read: after the monthly limit was breached and the flag set, a
    10 MB query is approved, and in every state the answer of
    [check_query_cost] is the same with the flag set as without. *)
Theorem check_query_cost_ignores_emergency_stop :
  emergency_stop (run init monthly_breach) = true /\
  (exists d, check_query_cost (run init monthly_breach) 10000000 = Ok d /\ approved d = true) /\
  (forall (self : monitor) (bytes_to_process : Z),
     check_query_cost (set_emergency_stop self) bytes_to_process
     = check_query_cost self bytes_to_process).
Proof.
  split; [vm_compute; reflexivity|]. split.
  - eexists. split; vm_compute; reflexivity.
  - intros self b. reflexivity.
Qed.

(** C3: [check_query_cost] rejects a request whose estimated cost exceeds
    the per-query limit, whose byte count exceeds the per-query byte limit,
    or whose estimated cost added to the cost of the day exceeds the daily
    limit, whatever the state of the ledger. *)
Theorem check_query_cost_rejects (self : monitor) (bytes_to_process : Z) (cost : float) :
  estimated_cost bytes_to_process = Ok cost ->
  fgt cost (query_cost_limit (thresholds self)) = true \/
  bytes_to_process > bytes_per_query_limit (thresholds self) \/
  fgt (fadd (current_day_cost self) cost) (daily_limit (thresholds self)) = true ->
  exists d, check_query_cost self bytes_to_process = Ok d /\
            approved d = false /\ severity d = CRITICAL.
Proof.
  intros Hc H. unfold check_query_cost. rewrite Hc. cbn [bind].
  destruct (fgt cost (query_cost_limit (thresholds self))) eqn:E1; [eexists; repeat split|].
  destruct (Z.gtb_spec bytes_to_process (bytes_per_query_limit (thresholds self)));
    [eexists; repeat split|].
  destruct (fgt (fadd (current_day_cost self) cost) (daily_limit (thresholds self))) eqn:E3;
    [eexists; repeat split|].
  destruct H as [H|[H|H]]; [discriminate|lia|discriminate].
Qed.

(** The examples of C3: a $1.01 query (202 GB) against the $1.00 limit is
    rejected; with $4.80 spent of a $5.00 day, a $0.30 query (60 GB) is
    rejected and a $0.10 query (20 GB) is approved. *)
Lemma check_query_cost_rejects_witness :
  (estimated_cost 202000000000 = Ok (literal 101 2) /\
   exists d, check_query_cost init 202000000000 = Ok d /\
             approved d = false /\ severity d = CRITICAL) /\
  (estimated_cost 60000000000 = Ok (literal 30 2) /\
   exists d, check_query_cost spent_480 60000000000 = Ok d /\
             approved d = false /\ severity d = CRITICAL) /\
  (estimated_cost 20000000000 = Ok (literal 10 2) /\
   exists d, check_query_cost spent_480 20000000000 = Ok d /\ approved d = true).
Proof.
  split; [|split].
  - split; [vm_compute; reflexivity|].
    apply (check_query_cost_rejects init 202000000000 (literal 101 2)).
    + vm_compute; reflexivity.
    + left. vm_compute; reflexivity.
  - split; [vm_compute; reflexivity|].
    apply (check_query_cost_rejects spent_480 60000000000 (literal 30 2)).
    + vm_compute; reflexivity.
    + right. right. vm_compute; reflexivity.
  - split; [vm_compute; reflexivity|].
    eexists. split; vm_compute; reflexivity.
Defined.

(** C4 as stated fails: a stop set by a monthly-cost breach alone is
    cleared by the day rollover, while the month is still over its limit. *)
Lemma daily_reset_clears_monthly_stop :
  let self := run init monthly_breach in
  emergency_stop self = true /\
  fgt (current_month_cost self) (monthly_limit (thresholds self)) = true /\
  fgt (current_day_cost self) (daily_limit (thresholds self)) = false /\
  (current_day_queries self >? queries_per_day_limit (thresholds self)) = false /\
  emergency_stop (reset_daily_counters self) = false /\
  fgt (current_month_cost (reset_daily_counters self))
      (monthly_limit (thresholds (reset_daily_counters self))) = true.
Proof. vm_compute. repeat split. Qed.

(** C4, amended: once set, the emergency-stop flag stays set through every
    call other than the day rollover (cost checks, usage updates, hour and
    month rollovers); the day rollover clears it whatever set it; the month
    rollover zeroes the monthly cost and leaves the flag as it is. *)
Theorem emergency_stop_cleared_only_by_daily_reset (self : monitor) (cs : list call) :
  emergency_stop self = true ->
  forallb (fun c => negb (is_daily_reset c)) cs = true ->
  emergency_stop (run self cs) = true /\
  emergency_stop (reset_daily_counters (run self cs)) = false /\
  emergency_stop (reset_monthly_counters (run self cs)) = true /\
  current_month_cost (reset_monthly_counters (run self cs)) = zero.
Proof.
  intros Hs Hcs.
  assert (Hrun : emergency_stop (run self cs) = true).
  { unfold run. revert self Hs. induction cs as [|c cs IH]; intros self Hs; [exact Hs|].
    simpl in Hcs. apply andb_true_iff in Hcs as [Hc Hcs]. simpl.
    apply IH; [assumption|]. apply step_keeps_stop; [|assumption].
    now destruct (is_daily_reset c). }
  repeat split; assumption.
Qed.

Lemma emergency_stop_cleared_only_by_daily_reset_witness :
  let self := run init monthly_breach in
  let cs := [ CheckQueryCost 10000000; ResetMonthly; ResetHourly;
              UpdateUsage 5 (literal 1 2) ] in
  emergency_stop (run self cs) = true /\
  emergency_stop (reset_daily_counters (run self cs)) = false /\
  emergency_stop (reset_monthly_counters (run self cs)) = true /\
  current_month_cost (reset_monthly_counters (run self cs)) = zero.
Proof.
  apply (emergency_stop_cleared_only_by_daily_reset (run init monthly_breach)).
  - vm_compute; reflexivity.
  - reflexivity.
Defined.

(** C8: [update_usage] does not look at its [bytes_processed] argument:
    with the same cost, any two byte counts give the same ledger and the
    same alerts. *)
Theorem update_usage_ignores_bytes (self : monitor) (b1 b2 : Z) (cost : float) :
  update_usage self b1 cost = update_usage self b2 cost.
Proof. reflexivity. Qed.

End CostMonitorFacts.

(** ** Strings *)

Section StringFacts.

Import PyStr.
Local Open Scope string_scope.

Lemma count_char_app (a : ascii) (s1 s2 : string) :
  count_char a (s1 +:+ s2) = (count_char a s1 + count_char a s2)%nat.
Proof. induction s1 as [|c s1 IH]; simpl; [reflexivity|]. rewrite IH. lia. Qed.

Lemma length_app (s1 s2 : string) :
  String.length (s1 +:+ s2) = (String.length s1 + String.length s2)%nat.
Proof. induction s1 as [|c s1 IH]; simpl; [reflexivity|now rewrite IH]. Qed.

Lemma startswith_split (p s : string) :
  startswith p s = true -> exists rest, s = p +:+ rest.
Proof.
  revert s. induction p as [|a p IH]; intros s H; simpl in *.
  - now exists s.
  - destruct s as [|b s]; [discriminate|].
    destruct (Ascii.eqb_spec a b) as [->|]; [|discriminate].
    destruct (IH s H) as [rest ->]. now exists rest.
Qed.

(** Dropping the rest of a matched occurrence. *)
Lemma replace_from_skip (old new p rest : string) :
  replace_from old new (String.length p) (p +:+ rest) = replace_from old new 0 rest.
Proof.
  induction p as [|c p IH]; simpl; [|exact IH].
  destruct rest; reflexivity.
Qed.

Lemma startswith_app (p rest : string) : startswith p (p +:+ rest) = true.
Proof.
  induction p as [|a p IH]; [reflexivity|].
  simpl. rewrite Ascii.eqb_refl. exact IH.
Qed.

Lemma replace_from_match (old new : string) (c : ascii) (old' rest : string) :
  old = String c old' ->
  replace_from old new 0 (old +:+ rest) = new +:+ replace_from old new 0 rest.
Proof.
  intros ->. pose proof (startswith_app (String c old') rest) as H.
  change (String c old' +:+ rest) with (String c (old' +:+ rest)) in *.
  cbn [replace_from]. rewrite H.
  replace (String.length (String c old') - 1)%nat with (String.length old')
    by (simpl; lia).
  now rewrite replace_from_skip.
Qed.

(** Replacing leaves the number of occurrences of a character that is
    neither in the old nor in the new text. *)
Lemma count_char_replace_from (a : ascii) (old new : string) (n : nat) :
  old <> "" -> count_char a old = 0%nat -> count_char a new = 0%nat ->
  forall s, (String.length s <= n)%nat ->
    count_char a (replace_from old new 0 s) = count_char a s.
Proof.
  intros Hne Ho Hn. induction n as [|n IH]; intros s Hlen.
  - destruct s; [reflexivity|simpl in Hlen; lia].
  - destruct s as [|c s]; [reflexivity|].
    destruct (startswith old (String c s)) eqn:E.
    + destruct (startswith_split _ _ E) as [rest Hs].
      destruct old as [|c0 old']; [congruence|].
      rewrite Hs, (replace_from_match _ new c0 old' rest eq_refl), !count_char_app, Ho, Hn.
      simpl. apply IH.
      assert (Hl : String.length (String c s) = String.length (String c0 old' +:+ rest)) by now rewrite Hs.
      rewrite length_app in Hl. simpl in Hl, Hlen. lia.
    + cbn [replace_from]. rewrite E. cbn [count_char]. f_equal. apply IH. simpl in Hlen. lia.
Qed.

Lemma count_char_intersperse (a : ascii) (new s : string) :
  count_char a new = 0%nat -> count_char a (intersperse new s) = count_char a s.
Proof.
  intros Hn. induction s as [|c s IH]; simpl; [assumption|].
  rewrite count_char_app, Hn. simpl. now rewrite IH.
Qed.

Lemma count_char_replace (a : ascii) (old new s : string) :
  count_char a old = 0%nat -> count_char a new = 0%nat ->
  count_char a (replace old new s) = count_char a s.
Proof.
  intros Ho Hn. unfold replace. destruct old as [|c old'].
  - now apply count_char_intersperse.
  - now apply (count_char_replace_from a _ new (String.length s)).
Qed.

(** A pattern whose first character does not occur is not replaced. *)
Lemma replace_absent (c : ascii) (old' new s : string) :
  count_char c s = 0%nat -> replace (String c old') new s = s.
Proof.
  unfold replace. induction s as [|b s IH]; intros H; [reflexivity|].
  simpl in H. cbn [replace_from startswith].
  destruct (Ascii.eqb c b); [discriminate|].
  f_equal. apply IH. lia.
Qed.

Lemma has_no_upper_count (c : ascii) (s : string) :
  is_upper_char c = true -> has_no_upper s = true -> count_char c s = 0%nat.
Proof.
  intros Hc. induction s as [|b s IH]; simpl; [reflexivity|].
  intros H. apply andb_true_iff in H as [Hb Hs].
  destruct (Ascii.eqb_spec c b) as [->|]; [|now apply IH].
  rewrite Hc in Hb. discriminate.
Qed.

Lemma has_no_upper_app (s1 s2 : string) :
  has_no_upper (s1 +:+ s2) = has_no_upper s1 && has_no_upper s2.
Proof. induction s1 as [|c s1 IH]; simpl; [reflexivity|]. now rewrite IH, andb_assoc. Qed.

Lemma upper_app (s1 s2 : string) : upper (s1 +:+ s2) = upper s1 +:+ upper s2.
Proof. induction s1 as [|c s1 IH]; simpl; [reflexivity|]. now rewrite IH. Qed.

(** On text without upper case, [upper] keeps characters apart. *)
Lemma upper_char_eqb (a b : ascii) :
  is_upper_char a = false -> is_upper_char b = false ->
  Ascii.eqb (upper_char a) (upper_char b) = Ascii.eqb a b.
Proof.
  unfold is_upper_char, upper_char. intros Ha Hb.
  pose proof (nat_ascii_bounded a) as Ba. pose proof (nat_ascii_bounded b) as Bb.
  pose proof (ascii_nat_embedding a) as Ea. pose proof (ascii_nat_embedding b) as Eb.
  set (na := nat_of_ascii a) in *. set (nb := nat_of_ascii b) in *.
  assert (Hinj : forall x y, (x < 256)%nat -> (y < 256)%nat ->
                   ascii_of_nat x = ascii_of_nat y -> x = y).
  { intros x y Hx Hy E. apply (f_equal nat_of_ascii) in E.
    now rewrite !nat_ascii_embedding in E. }
  apply andb_false_iff in Ha, Hb. rewrite !Nat.leb_gt in Ha, Hb.
  assert (Hn : a = b <-> na = nb).
  { split; [intros ->; reflexivity|]. intros E. rewrite <- Ea, <- Eb. now f_equal. }
  destruct (Nat.leb_spec 97 na), (Nat.leb_spec na 122),
    (Nat.leb_spec 97 nb), (Nat.leb_spec nb 122); cbn [andb];
    destruct (Ascii.eqb_spec a b) as [Hab|Hab];
    try match goal with
    | |- Ascii.eqb ?x ?y = _ => destruct (Ascii.eqb_spec x y) as [Hxy|Hxy]
    end; try reflexivity; exfalso;
    try (apply Hn in Hab; lia);
    try (apply Hxy; apply Hn in Hab; now rewrite Hab);
    try (apply Hinj in Hxy; [|lia|lia]; apply Hab, Hn; lia);
    try (rewrite <- Eb in Hxy; apply Hinj in Hxy; lia);
    try (rewrite <- Ea in Hxy; apply Hinj in Hxy; lia).
Qed.

Lemma startswith_upper (p s : string) :
  has_no_upper p = true -> has_no_upper s = true ->
  startswith (upper p) (upper s) = startswith p s.
Proof.
  revert s. induction p as [|a p IH]; intros s Hp Hs; [reflexivity|].
  destruct s as [|b s]; [reflexivity|]. simpl in *.
  apply andb_true_iff in Hp as [Ha Hp]. apply andb_true_iff in Hs as [Hb Hs].
  rewrite upper_char_eqb by now apply negb_true_iff.
  now rewrite IH.
Qed.

Lemma contains_upper (p s : string) :
  has_no_upper p = true -> has_no_upper s = true ->
  contains (upper p) (upper s) = contains p s.
Proof.
  intros Hp. induction s as [|b s IH]; intros Hs.
  - cbn [upper contains]. pose proof (startswith_upper p "" Hp eq_refl) as H.
    cbn [upper] in H. now rewrite H.
  - cbn [upper contains]. change (String (upper_char b) (upper s)) with (upper (String b s)).
    rewrite startswith_upper by assumption.
    simpl in Hs. apply andb_true_iff in Hs as [_ Hs]. now rewrite IH.
Qed.

Lemma startswith_app_l (p s t : string) :
  startswith p s = true -> startswith p (s +:+ t) = true.
Proof.
  revert s. induction p as [|a p IH]; intros s; [reflexivity|].
  destruct s as [|b s]; [discriminate|]. simpl.
  destruct (Ascii.eqb a b); [apply IH|discriminate].
Qed.

Lemma contains_app_l (p s t : string) :
  contains p s = true -> contains p (s +:+ t) = true.
Proof.
  induction s as [|b s IH].
  - cbn [contains]. destruct (startswith p "") eqn:E; [|discriminate].
    intros _. pose proof (startswith_app_l p "" t E) as H.
    destruct ("" +:+ t); cbn [contains]; now rewrite H.
  - cbn [contains]. destruct (startswith p (String b s)) eqn:E.
    + intros _. pose proof (startswith_app_l p _ t E) as H.
      change (String b s +:+ t) with (String b (s +:+ t)) in *.
      cbn [contains]. now rewrite H.
    + intros H. change (String b s +:+ t) with (String b (s +:+ t)).
      cbn [contains]. rewrite (IH H). now destruct (startswith p (String b (s +:+ t))).
Qed.
End StringFacts.

(** ** The query optimizer *)

Section OptimizerFacts.

Import PyStr QueryOptimizer.
Local Open Scope string_scope.

Lemma append_cons (c : ascii) (s t : string) : String c s +:+ t = String c (s +:+ t).
Proof. reflexivity. Qed.

Lemma append_assoc (s1 s2 s3 : string) : (s1 +:+ s2) +:+ s3 = s1 +:+ (s2 +:+ s3).
Proof. induction s1 as [|c s1 IH]; [reflexivity|]. now rewrite !append_cons, IH. Qed.

(** The hint lines are put in front of the query, whatever the query is. *)
Lemma add_query_hints_prepends (query query_type : string) :
  _add_query_hints query query_type = _add_query_hints "" query_type +:+ query.
Proof.
  unfold _add_query_hints.
  destruct (String.eqb query_type "dashboard"); [|destruct (String.eqb query_type "report")];
    cbn [app map join]; now rewrite !append_assoc.
Qed.

Lemma add_query_hints_marker (query_type : string) :
  (1 <= count_char "@" (_add_query_hints "" query_type))%nat.
Proof.
  unfold _add_query_hints.
  destruct (String.eqb query_type "dashboard"); [|destruct (String.eqb query_type "report")];
    cbn [app map join]; rewrite !count_char_app; simpl; lia.
Qed.

Lemma add_date_filter_markers (q : string) :
  count_char "@" (_add_date_filter q) = count_char "@" q.
Proof.
  unfold _add_date_filter. destruct (contains "WHERE" (upper q)).
  - now apply count_char_replace.
  - rewrite count_char_app, count_char_replace by reflexivity. simpl. lia.
Qed.

Lemma add_limit_markers (q : string) :
  count_char "@" (_add_limit q) = count_char "@" q.
Proof.
  unfold _add_limit. destruct (negb _); [|reflexivity].
  rewrite count_char_app. simpl. lia.
Qed.

Lemma use_approx_functions_markers (q : string) :
  count_char "@" (_use_approx_functions q) = count_char "@" q.
Proof. unfold _use_approx_functions. now rewrite !count_char_replace. Qed.

(** The rules neither add nor remove a hint marker. *)
Lemma rules_keep_markers (q : string) (applied : list string) :
  count_char "@" (fst (apply_rules _load_optimization_rules q applied)) = count_char "@" q.
Proof.
  unfold _load_optimization_rules. cbn [apply_rules check action description].
  repeat match goal with
         | |- context [if ?c then _ else _] => destruct c
         end;
    cbn [fst]; unfold _optimize_select_star;
    rewrite ?use_approx_functions_markers, ?add_limit_markers, ?add_date_filter_markers;
    reflexivity.
Qed.

Lemma optimize_query_markers (q query_type : string) :
  count_char "@" (fst (optimize_query q query_type))
  = (count_char "@" (_add_query_hints "" query_type) + count_char "@" q)%nat.
Proof.
  unfold optimize_query.
  pose proof (rules_keep_markers q []) as H.
  destruct (apply_rules _load_optimization_rules q []) as [optimized applied].
  cbn [fst] in *. now rewrite add_query_hints_prepends, count_char_app, H.
Qed.

(** C2, amended: [optimize_query] is idempotent on no input. The hint
    comment lines are put in front of the text at every application, whether
    or not they are there already, and no rule removes them, so applying the
    rewriter to its own output always gives a different, longer text. *)
Theorem optimize_query_never_idempotent (q query_type : string) :
  fst (optimize_query (fst (optimize_query q query_type)) query_type)
  <> fst (optimize_query q query_type).
Proof.
  intros H. apply (f_equal (count_char "@")) in H.
  rewrite !optimize_query_markers in H.
  pose proof (add_query_hints_marker query_type). lia.
Qed.

(** C2 as stated fails: rewriting the output of the rewriter for a query
    of the repository's own samples changes it. *)
Lemma optimize_query_not_idempotent_example :
  fst (optimize_query (fst (optimize_query "SELECT page, views FROM pages" "dashboard")) "dashboard")
  <> fst (optimize_query "SELECT page, views FROM pages" "dashboard").
Proof. apply String.eqb_neq. vm_compute. reflexivity. Qed.

Lemma add_date_filter_lower (q : string) :
  has_no_upper q = true -> contains "WHERE" (upper q) = true -> _add_date_filter q = q.
Proof.
  intros Hq Hw. unfold _add_date_filter. rewrite Hw.
  apply replace_absent. now apply has_no_upper_count.
Qed.

Lemma use_approx_functions_absent (t : string) :
  count_char "C" t = 0%nat -> count_char "A" t = 0%nat -> _use_approx_functions t = t.
Proof.
  intros HC HA. unfold _use_approx_functions.
  rewrite (replace_absent "C" _ _ t HC). now apply replace_absent.
Qed.

(** C9, amended: for a query of ASCII characters without upper-case
    letters, [optimize_query] reports the date-filter rule when the query
    contains "where" and not "date", and the approximate-count rule when it
    contains "count(distinct", while their case-sensitive replacements
    change nothing: the text returned is the hint comments, then the query,
    then " LIMIT 10000" exactly when the limit rule fires, which appends
    rather than replaces. The restriction to ASCII is the range on which
    [upper] is [str.upper]: outside it [str.upper] can produce the letters
    of a keyword from characters that are not letters of A-Z or a-z. *)
Theorem lowercase_query_rules (q query_type : string) :
  is_ascii q = true ->
  has_no_upper q = true ->
  let limit_fires :=
    contains "select" q && negb (contains "limit" q) && negb (contains "group by" q) in
  fst (optimize_query q query_type)
  = _add_query_hints "" query_type +:+ (if limit_fires then q +:+ " LIMIT 10000" else q) /\
  (contains "where" q = true -> contains "date" q = false ->
   In "Add date filter to reduce data scanned" (snd (optimize_query q query_type))) /\
  (contains "count(distinct" q = true ->
   In "Use APPROX functions for better performance" (snd (optimize_query q query_type))).
Proof.
  intros _ Hq limit_fires. subst limit_fires.
  rewrite <- (contains_upper "select" q), <- (contains_upper "limit" q),
    <- (contains_upper "group by" q), <- (contains_upper "where" q),
    <- (contains_upper "date" q), <- (contains_upper "count(distinct" q) by (reflexivity || assumption).
  change (upper "select") with "SELECT". change (upper "limit") with "LIMIT".
  change (upper "group by") with "GROUP BY". change (upper "where") with "WHERE".
  change (upper "date") with "DATE". change (upper "count(distinct") with "COUNT(DISTINCT".
  assert (HC : count_char "C" q = 0%nat) by now apply has_no_upper_count.
  assert (HA : count_char "A" q = 0%nat) by now apply has_no_upper_count.
  assert (HCl : count_char "C" (q +:+ " LIMIT 10000") = 0%nat)
    by (rewrite count_char_app, HC; reflexivity).
  assert (HAl : count_char "A" (q +:+ " LIMIT 10000") = 0%nat)
    by (rewrite count_char_app, HA; reflexivity).
  unfold optimize_query, _load_optimization_rules.
  cbn [apply_rules check action description].
  destruct (contains "WHERE" (upper q)) eqn:EW; cbn [andb];
    [destruct (contains "DATE" (upper q)) eqn:ED; cbn [negb andb];
     rewrite ?(add_date_filter_lower q Hq EW)|];
    (destruct (contains "SELECT" (upper q)) eqn:ES; cbn [andb];
     [destruct (contains "LIMIT" (upper q)) eqn:EL; cbn [negb andb];
      [|destruct (contains "GROUP BY" (upper q)) eqn:EG; cbn [negb andb];
        [|unfold _add_limit; rewrite EL; cbn [negb]]]|]);
    unfold _optimize_select_star;
    rewrite ?upper_app;
    repeat match goal with
           | |- context [if contains ?p ?t then _ else _] =>
               let E := fresh "E" in destruct (contains p t) eqn:E
           end;
    rewrite ?(use_approx_functions_absent _ HC HA), ?(use_approx_functions_absent _ HCl HAl);
    cbn [fst snd]; rewrite add_query_hints_prepends;
    (split; [reflexivity|split; intros; try discriminate; simpl; auto 10]).
  all: try (match goal with
            | H1 : contains "COUNT(DISTINCT" ?u = true,
              H2 : contains "COUNT(DISTINCT" (?u +:+ _) = false |- _ =>
                rewrite (contains_app_l _ _ _ H1) in H2; discriminate
            end).
Qed.

Lemma lowercase_query_rules_witness :
  fst (optimize_query "select count(distinct user_id) from sessions where id = 1" "report")
  = _add_query_hints "" "report"
    +:+ "select count(distinct user_id) from sessions where id = 1 LIMIT 10000" /\
  In "Add date filter to reduce data scanned"
     (snd (optimize_query "select count(distinct user_id) from sessions where id = 1" "report")) /\
  In "Use APPROX functions for better performance"
     (snd (optimize_query "select count(distinct user_id) from sessions where id = 1" "report")).
Proof.
  destruct (lowercase_query_rules
              "select count(distinct user_id) from sessions where id = 1" "report"
              eq_refl eq_refl)
    as [H1 [H2 H3]].
  split; [exact H1|]. split; [apply H2; reflexivity|apply H3; reflexivity].
Defined.

(** C9 as stated fails: a lower-case query with "where" has the date-filter
    rule reported, yet its text is not left as it was behind the hint
    comments, since the limit rule appends to it. *)
Lemma lowercase_query_gets_limit :
  has_no_upper "select a from t where b = 1" = true /\
  contains "where" "select a from t where b = 1" = true /\
  In "Add date filter to reduce data scanned"
     (snd (optimize_query "select a from t where b = 1" "general")) /\
  fst (optimize_query "select a from t where b = 1" "general")
  = _add_query_hints "select a from t where b = 1 LIMIT 10000" "general" /\
  fst (optimize_query "select a from t where b = 1" "general")
  <> _add_query_hints "select a from t where b = 1" "general".
Proof.
  repeat split; try (vm_compute; reflexivity).
  - vm_compute. auto.
  - apply String.eqb_neq. vm_compute. reflexivity.
Qed.

End OptimizerFacts.

(** ** The cost estimate *)

Section EstimatorFacts.

Import CostMonitor.

Lemma estimate_query_cost_error (dry_run : string -> result Z) (q : string) (e : py_exn) :
  OptimizedBigQueryManager.error (OptimizedBigQueryManager.estimate_query_cost dry_run q)
  = Some e ->
  dry_run q = Raise e \/
  exists b, dry_run q = Ok b /\ estimated_cost b = Raise e.
Proof.
  unfold OptimizedBigQueryManager.estimate_query_cost, estimated_cost.
  destruct (dry_run q) as [b|e']; cbn [bind].
  - destruct (int_truediv b 1000000000000) as [x|e'] eqn:E;
      cbn [bind OptimizedBigQueryManager.error]; intros H; inversion H; subst.
    right. exists b. split; [reflexivity|]. now rewrite E.
  - cbn [OptimizedBigQueryManager.error]. intros H; inversion H; subst; auto.
Qed.

(** C5 as stated fails: a negative byte count gets a negative estimate,
    which [check_query_cost] approves and [estimate_query_cost] reports
    without an error entry. *)
Lemma negative_bytes_not_flagged :
  exists c,
    estimated_cost (-1000) = Ok c /\
    flt c zero = true /\
    check_query_cost init (-1000)
    = Ok {| approved := true; info := EstimatedCost c; severity := INFO |} /\
    OptimizedBigQueryManager.estimate_query_cost (fun _ => Ok (-1000)) "SELECT 1"
    = {| OptimizedBigQueryManager.error := None;
         OptimizedBigQueryManager.bytes_processed := -1000;
         OptimizedBigQueryManager.estimated_cost := c;
         OptimizedBigQueryManager.cost_warning := Some false;
         OptimizedBigQueryManager.within_limit := true |}.
Proof. eexists. repeat split; vm_compute; reflexivity. Qed.

(** C5, amended: the cost estimate is a function of the byte count alone,
    bytes / 10^12 * 5.00, and no byte count is treated as invalid. For every
    negative byte count (of at most 1023 bits) the estimate is computed and
    is strictly negative; [check_query_cost] answers with a decision and
    [estimate_query_cost] reports the negative estimate with no error entry.
    The zero-cost estimate with an error entry is returned only when the dry
    run or the computation of the cost raises. *)
Theorem negative_bytes_estimate (b : Z) :
  - 2 ^ 1023 < b < 0 ->
  exists c,
    estimated_cost b = Ok c /\
    flt c zero = true /\
    (forall self : monitor, exists d, check_query_cost self b = Ok d) /\
    (forall (dry_run : string -> result Z) (q : string),
       dry_run q = Ok b ->
       OptimizedBigQueryManager.estimate_query_cost dry_run q
       = {| OptimizedBigQueryManager.error := None;
            OptimizedBigQueryManager.bytes_processed := b;
            OptimizedBigQueryManager.estimated_cost := c;
            OptimizedBigQueryManager.cost_warning := Some false;
            OptimizedBigQueryManager.within_limit := true |}) /\
    (forall (dry_run : string -> result Z) (q : string) (e : py_exn),
       OptimizedBigQueryManager.error
         (OptimizedBigQueryManager.estimate_query_cost dry_run q) = Some e ->
       dry_run q = Raise e \/ exists b', dry_run q = Ok b' /\ estimated_cost b' = Raise e).
Proof.
  intros Hb. destruct (estimated_cost_negative b Hb) as [c [Hc [Hneg Hwarn]]].
  exists c. split; [exact Hc|]. split; [exact Hneg|]. split; [|split].
  - intros self. unfold check_query_cost. rewrite Hc. cbn [bind].
    destruct (fgt c (query_cost_limit (thresholds self))); [eexists; reflexivity|].
    destruct (b >? bytes_per_query_limit (thresholds self)); [eexists; reflexivity|].
    destruct (fgt (fadd (current_day_cost self) c) (daily_limit (thresholds self)));
      [eexists; reflexivity|].
    destruct (fgt c (query_cost_warning (thresholds self))); eexists; reflexivity.
  - intros dry_run q Hq. unfold OptimizedBigQueryManager.estimate_query_cost.
    rewrite Hq. cbn [bind]. unfold estimated_cost in Hc.
    destruct (int_truediv b 1000000000000) as [x|e]; cbn [bind] in *; [|discriminate].
    inversion Hc; subst c. unfold OptimizedBigQueryManager.COST_PER_TB. rewrite Hwarn.
    replace (b <=? OptimizedBigQueryManager.MAX_BYTES_PER_QUERY) with true; [reflexivity|].
    symmetry. apply Z.leb_le. unfold OptimizedBigQueryManager.MAX_BYTES_PER_QUERY. lia.
  - intros dry_run q e. apply estimate_query_cost_error.
Qed.

Lemma negative_bytes_estimate_witness :
  exists c,
    estimated_cost (-1000) = Ok c /\
    flt c zero = true /\
    (forall self : monitor, exists d, check_query_cost self (-1000) = Ok d) /\
    (forall (dry_run : string -> result Z) (q : string),
       dry_run q = Ok (-1000) ->
       OptimizedBigQueryManager.estimate_query_cost dry_run q
       = {| OptimizedBigQueryManager.error := None;
            OptimizedBigQueryManager.bytes_processed := -1000;
            OptimizedBigQueryManager.estimated_cost := c;
            OptimizedBigQueryManager.cost_warning := Some false;
            OptimizedBigQueryManager.within_limit := true |}) /\
    (forall (dry_run : string -> result Z) (q : string) (e : py_exn),
       OptimizedBigQueryManager.error
         (OptimizedBigQueryManager.estimate_query_cost dry_run q) = Some e ->
       dry_run q = Raise e \/ exists b', dry_run q = Ok b' /\ estimated_cost b' = Raise e).
Proof.
  apply (negative_bytes_estimate (-1000)).
  split; [|lia]. apply Z.opp_lt_mono. rewrite Z.opp_involutive.
  change (- -1000) with 1000. apply Z.lt_trans with (2 ^ 10); [reflexivity|].
  apply Z.pow_lt_mono_r; lia.
Defined.

End EstimatorFacts.

(** ** The query cache *)

Section CacheFacts.

Variables Params Data : Type.
Variable json_dumps_sorted : Params -> string.
Variable params_is_empty : Params -> bool.
Variable md5_hexdigest : string -> string.
Variable str_len : QueryCache.entry Data -> Z.

Local Abbreviation key := (QueryCache.get_cache_key Params json_dumps_sorted params_is_empty md5_hexdigest).
Local Abbreviation get := (QueryCache.get Params Data json_dumps_sorted params_is_empty md5_hexdigest).
Local Abbreviation set := (QueryCache.set Params Data json_dumps_sorted params_is_empty md5_hexdigest).
Local Abbreviation is_hit := (QueryCache.is_hit Params Data json_dumps_sorted params_is_empty md5_hexdigest).
Local Abbreviation step := (QueryCache.step Params Data json_dumps_sorted params_is_empty md5_hexdigest).
Local Abbreviation run := (QueryCache.run Params Data json_dumps_sorted params_is_empty md5_hexdigest).
Local Abbreviation count_hits := (QueryCache.count_hits Params Data json_dumps_sorted params_is_empty md5_hexdigest).
Local Abbreviation count_misses := (QueryCache.count_misses Params Data json_dumps_sorted params_is_empty md5_hexdigest).
Local Abbreviation get_stats := (QueryCache.get_stats Data str_len).

Lemma set_keeps_counters (self self' : QueryCache.t Data) q d ttl p n1 n2 :
  set self q d ttl p n1 n2 = Ok self' ->
  QueryCache.hit_count self' = QueryCache.hit_count self /\
  QueryCache.miss_count self' = QueryCache.miss_count self.
Proof.
  unfold QueryCache.set.
  destruct (timedelta_seconds _) as [delta|e]; cbn [bind]; [|discriminate].
  destruct (datetime_add _ _) as [ex|e]; cbn [bind]; [|discriminate].
  intros H. inversion H. split; reflexivity.
Qed.

Lemma step_counters (self : QueryCache.t Data) (c : QueryCache.call Params Data) :
  QueryCache.hit_count (step self c)
  = QueryCache.hit_count self + count_hits self [c] /\
  QueryCache.miss_count (step self c)
  = QueryCache.miss_count self + count_misses self [c].
Proof.
  destruct c as [q p now|q d ttl p n1 n2|now]; cbn [QueryCache.count_hits QueryCache.count_misses].
  - unfold QueryCache.step, QueryCache.get, QueryCache.is_hit.
    destruct (QueryCache.cache self !! key q p) as [e|];
      [destruct (now <? QueryCache.expires e)|]; cbn; lia.
  - unfold QueryCache.step.
    destruct (set self q d ttl p n1 n2) as [self'|e] eqn:E; [|lia].
    apply set_keeps_counters in E. lia.
  - cbn. lia.
Qed.

Lemma run_counters (cs : list (QueryCache.call Params Data)) :
  forall self : QueryCache.t Data,
    QueryCache.hit_count (run self cs) = QueryCache.hit_count self + count_hits self cs /\
    QueryCache.miss_count (run self cs) = QueryCache.miss_count self + count_misses self cs.
Proof.
  induction cs as [|c cs IH]; intros self; [cbn; lia|].
  destruct (IH (step self c)) as [H1 H2]. destruct (step_counters self c) as [H3 H4].
  unfold QueryCache.run in *. cbn [fold_left].
  cbn [QueryCache.count_hits QueryCache.count_misses] in *. lia.
Qed.

Lemma counts_bounds (cs : list (QueryCache.call Params Data)) :
  forall self : QueryCache.t Data,
    0 <= count_hits self cs /\ 0 <= count_misses self cs /\
    count_hits self cs + count_misses self cs
    = Z.of_nat (length (filter (fun c => QueryCache.is_get Params Data c = true) cs)).
Proof.
  induction cs as [|c cs IH]; intros self; [cbn; lia|].
  destruct (IH (step self c)) as [H1 [H2 H3]].
  cbn [QueryCache.count_hits QueryCache.count_misses].
  destruct c as [q p now|q d ttl p n1 n2|now].
  - rewrite filter_cons_True by reflexivity. cbn [length].
    destruct (is_hit self q p now); lia.
  - rewrite filter_cons_False by discriminate. lia.
  - rewrite filter_cons_False by discriminate. lia.
Qed.

Lemma get_hit_rate_total (self : QueryCache.t Data) :
  0 <= QueryCache.hit_count self -> 0 <= QueryCache.miss_count self ->
  (QueryCache.hit_count self + QueryCache.miss_count self = 0 /\
   QueryCache.get_hit_rate self = Ok zero) \/
  (QueryCache.hit_count self + QueryCache.miss_count self <> 0 /\
   exists q,
     int_truediv (QueryCache.hit_count self)
       (QueryCache.hit_count self + QueryCache.miss_count self) = Ok q /\
     QueryCache.get_hit_rate self = Ok (fmul q (of_small_int 100))).
Proof.
  intros Hh Hm. unfold QueryCache.get_hit_rate.
  destruct (Z.eqb_spec (QueryCache.hit_count self + QueryCache.miss_count self) 0) as [E|E];
    [left; now split|right; split; [assumption|]].
  destruct (int_truediv_ok (QueryCache.hit_count self)
              (QueryCache.hit_count self + QueryCache.miss_count self)) as [q Hq];
    [assumption| |].
  - assert (0 < 2 ^ 1023) by (apply Z.pow_pos_nonneg; lia). nia.
  - exists q. split; [assumption|]. now rewrite Hq.
Qed.

(** C6 as stated fails: after one hit and one miss the reported hit rate
    is 50.0, not 1 / (1 + 1) = 0.5. *)
Lemma hit_rate_is_a_percentage :
  exists st,
    SampleCache.get_stats (SampleCache.run (QueryCache.new 3600) SampleCache.one_hit_one_miss)
    = Ok st /\
    QueryCache.hits st = 1 /\ QueryCache.misses st = 1 /\
    QueryCache.hit_rate st = of_small_int 50 /\
    int_truediv 1 (1 + 1) = Ok (literal 5 1) /\
    QueryCache.hit_rate st <> literal 5 1.
Proof.
  eexists. split; [vm_compute; reflexivity|].
  repeat split; try (vm_compute; reflexivity).
  vm_compute. discriminate.
Qed.

(** C6, amended: after any run of calls on a new cache, [get_stats]
    returns the number of lookups that hit, the number that missed (together
    the number of lookups), the number of entries, and a hit rate that is a
    percentage: 0.0 when there was no lookup yet, and otherwise
    hits / (hits + misses) * 100. *)
Theorem get_stats_after_calls (default_ttl : Z) (cs : list (QueryCache.call Params Data)) :
  let self := run (QueryCache.new default_ttl) cs in
  let h := count_hits (QueryCache.new default_ttl) cs in
  let m := count_misses (QueryCache.new default_ttl) cs in
  h + m = Z.of_nat (length (filter (fun c => QueryCache.is_get Params Data c = true) cs)) /\
  exists st,
    get_stats self = Ok st /\
    QueryCache.entries st = Z.of_nat (size (QueryCache.cache self)) /\
    QueryCache.hits st = h /\
    QueryCache.misses st = m /\
    ((h + m = 0 /\ QueryCache.hit_rate st = zero) \/
     (h + m <> 0 /\
      exists q, int_truediv h (h + m) = Ok q /\
                QueryCache.hit_rate st = fmul q (of_small_int 100))).
Proof.
  intros self h m.
  destruct (counts_bounds cs (QueryCache.new default_ttl)) as [Hh [Hm Hsum]].
  destruct (run_counters cs (QueryCache.new default_ttl)) as [Hhc Hmc].
  cbn [QueryCache.new QueryCache.hit_count QueryCache.miss_count] in Hhc, Hmc.
  fold self h m in Hh, Hm, Hsum, Hhc, Hmc. rewrite Z.add_0_l in Hhc, Hmc.
  split; [exact Hsum|].
  unfold QueryCache.get_stats.
  destruct (get_hit_rate_total self ltac:(lia) ltac:(lia)) as [[Hz Hr]|[Hnz [q [Hq Hr]]]];
    rewrite Hr; cbn [bind]; eexists; (split; [reflexivity|]);
    cbn [QueryCache.entries QueryCache.hits QueryCache.misses QueryCache.hit_rate];
    rewrite Hhc, Hmc in *; repeat split; eauto.
Qed.

End CacheFacts.

Section CacheTtlFacts.

Variables Params Data : Type.
Variable json_dumps_sorted : Params -> string.
Variable params_is_empty : Params -> bool.
Variable md5_hexdigest : string -> string.

Local Abbreviation key := (QueryCache.get_cache_key Params json_dumps_sorted params_is_empty md5_hexdigest).
Local Abbreviation get := (QueryCache.get Params Data json_dumps_sorted params_is_empty md5_hexdigest).
Local Abbreviation set := (QueryCache.set Params Data json_dumps_sorted params_is_empty md5_hexdigest).

(** C10: [set] called with [ttl = 0] stores the entry with the default TTL
    of the cache, 3600 seconds, not as an entry that has expired already: the
    entry expires 3600 seconds after the clock reading of [set], and a [get]
    before that moment is a hit that returns the payload. *)
Theorem set_with_zero_ttl_uses_default (self : QueryCache.t Data) (q : string)
    (data : option Data) (params : option Params) (now_expires now_cached now_get : Z) :
  QueryCache.default_ttl self = 3600 ->
  0 <= now_expires ->
  now_expires + 3600 * 1000000 <= datetime_max ->
  now_get < now_expires + 3600 * 1000000 ->
  exists self',
    set self q data (Some 0) params now_expires now_cached = Ok self' /\
    QueryCache.expires <$> (QueryCache.cache self' !! key q params)
    = Some (now_expires + 3600 * 1000000) /\
    snd (get self' q params now_get) = data /\
    QueryCache.hit_count (fst (get self' q params now_get)) = QueryCache.hit_count self + 1 /\
    QueryCache.miss_count (fst (get self' q params now_get)) = QueryCache.miss_count self.
Proof.
  intros Hd H0 Hmax Hget.
  unfold QueryCache.set, QueryCache.ttl_or_default. cbn [Z.eqb]. rewrite Hd.
  change (timedelta_seconds 3600) with (@Ok Z (3600 * 1000000)). cbn [bind].
  unfold datetime_add.
  destruct (Z.leb_spec 0 (now_expires + 3600 * 1000000)); [|lia].
  destruct (Z.leb_spec (now_expires + 3600 * 1000000) datetime_max); [|lia].
  cbn [andb bind]. eexists. split; [reflexivity|].
  unfold QueryCache.get. cbn [QueryCache.cache].
  rewrite lookup_insert_eq. cbn [fmap option_fmap option_map QueryCache.expires].
  split; [reflexivity|].
  destruct (Z.ltb_spec now_get (now_expires + 3600 * 1000000)); [|lia].
  cbn. repeat split; reflexivity.
Qed.

End CacheTtlFacts.

Lemma set_with_zero_ttl_uses_default_witness :
  exists self',
    SampleCache.set (QueryCache.new 3600) "q" (Some 7) (Some 0) None 0 0 = Ok self' /\
    QueryCache.expires
      <$> (QueryCache.cache self'
             !! QueryCache.get_cache_key unit SampleCache.json_dumps_sorted
                  SampleCache.params_is_empty SampleCache.md5_hexdigest "q" None)
    = Some (0 + 3600 * 1000000) /\
    snd (SampleCache.get self' "q" None 3599999999) = Some 7 /\
    QueryCache.hit_count (fst (SampleCache.get self' "q" None 3599999999)) = 0 + 1 /\
    QueryCache.miss_count (fst (SampleCache.get self' "q" None 3599999999)) = 0.
Proof.
  apply (set_with_zero_ttl_uses_default unit Z SampleCache.json_dumps_sorted
           SampleCache.params_is_empty SampleCache.md5_hexdigest
           (QueryCache.new 3600) "q" (Some 7) None 0 0 3599999999).
  - reflexivity.
  - lia.
  - unfold datetime_max. lia.
  - lia.
Defined.

(** ** Failed executions *)

Section ExecutionFacts.

Variables Params Data Rows : Type.
Variable json_dumps_sorted : Params -> string.
Variable params_is_empty : Params -> bool.
Variable md5_hexdigest : string -> string.
Variable dry_run : string -> result Z.
Variable run_query : string -> result (OptimizedBigQueryManager.query_job Rows).
Variable load_cost_row : OptimizedBigQueryManager.cost_row -> result unit.

Local Abbreviation get := (QueryCache.get Params Data json_dumps_sorted params_is_empty md5_hexdigest).
Local Abbreviation get_cached_or_execute :=
  (QueryOptimizer.get_cached_or_execute Params Data json_dumps_sorted params_is_empty
     md5_hexdigest).
Local Abbreviation execute_query_with_cost_control :=
  (OptimizedBigQueryManager.execute_query_with_cost_control Rows dry_run run_query
     load_cost_row).

(** Whatever makes the cost-controlled execution raise, the counters of the
    manager are as before. *)
Lemma execute_raise_keeps_counters (self self' : OptimizedBigQueryManager.manager)
    (q query_type : string) (duration_ms : Z) (rows : list OptimizedBigQueryManager.cost_row)
    (e : py_exn) :
  execute_query_with_cost_control self q query_type duration_ms = (self', rows, Raise e) ->
  self' = self.
Proof.
  unfold OptimizedBigQueryManager.execute_query_with_cost_control.
  destruct (_ >=? _)%Z; [intros H; now inversion H|].
  destruct (negb _); [intros H; now inversion H|].
  destruct (run_query _) as [job|e']; [|intros H; now inversion H].
  destruct (OptimizedBigQueryManager._track_query_cost _ _ _ _ _ _) as [rows' [u|e']];
    intros H; now inversion H.
Qed.

(** A lookup adds no entry to the cache and changes none. *)
Lemma get_adds_no_entry (self : QueryCache.t Data) (q : string) (params : option Params)
    (now : Z) (k : string) :
  QueryCache.cache (fst (get self q params now)) !! k = None \/
  QueryCache.cache (fst (get self q params now)) !! k = QueryCache.cache self !! k.
Proof.
  unfold QueryCache.get.
  destruct (QueryCache.cache self !! _) as [en|] eqn:E; [|now right].
  destruct (now <? QueryCache.expires en); [now right|]. cbn [fst QueryCache.cache].
  destruct (decide (QueryCache.get_cache_key Params json_dumps_sorted params_is_empty
                      md5_hexdigest q params = k)) as [<-|Hne].
  - left. apply lookup_delete_eq.
  - right. now apply lookup_delete_ne.
Qed.

(** C7: when the pre-check rejects a request, or when the executor raises
    after approval, the usage counters are as before, no cost row is handed
    to the load, and the error of the executor is the error the caller gets;
    on the cached path a raising executor leaves the cache as the lookup
    left it, with no entry added or changed, and its error is the error the
    caller gets. *)
Theorem failed_execution_records_nothing
    (self : OptimizedBigQueryManager.manager) (q query_type : string) (duration_ms : Z)
    (cache : QueryCache.t Data) (executor_func : string -> result (option Data))
    (params : option Params) (now_get now_expires now_cached : Z) :
  (OptimizedBigQueryManager.queries_today self >= OptimizedBigQueryManager.MAX_QUERIES_PER_DAY \/
   OptimizedBigQueryManager.within_limit
     (OptimizedBigQueryManager.estimate_query_cost dry_run q) = false ->
   exists e, execute_query_with_cost_control self q query_type duration_ms
             = (self, [], Raise e)) /\
  (forall e : py_exn,
     OptimizedBigQueryManager.queries_today self < OptimizedBigQueryManager.MAX_QUERIES_PER_DAY ->
     OptimizedBigQueryManager.within_limit
       (OptimizedBigQueryManager.estimate_query_cost dry_run q) = true ->
     run_query (OptimizedBigQueryManager._add_query_optimizations q) = Raise e ->
     execute_query_with_cost_control self q query_type duration_ms = (self, [], Raise e)) /\
  (forall e : py_exn,
     snd (get cache q params now_get) = None ->
     executor_func (fst (QueryOptimizer.optimize_query q query_type)) = Raise e ->
     get_cached_or_execute cache q executor_func query_type params
       now_get now_expires now_cached
     = (fst (get cache q params now_get), Raise e) /\
     forall k : string,
       QueryCache.cache (fst (get cache q params now_get)) !! k = None \/
       QueryCache.cache (fst (get cache q params now_get)) !! k
       = QueryCache.cache cache !! k).
Proof.
  split; [|split].
  - intros H. unfold OptimizedBigQueryManager.execute_query_with_cost_control.
    destruct (Z.geb_spec (OptimizedBigQueryManager.queries_today self)
                OptimizedBigQueryManager.MAX_QUERIES_PER_DAY) as [Hge|Hlt];
      [eexists; reflexivity|].
    destruct H as [H|H]; [lia|]. rewrite H. cbn [negb]. eexists; reflexivity.
  - intros e Hlt Hw Hrun. unfold OptimizedBigQueryManager.execute_query_with_cost_control.
    destruct (Z.geb_spec (OptimizedBigQueryManager.queries_today self)
                OptimizedBigQueryManager.MAX_QUERIES_PER_DAY) as [Hge|_]; [lia|].
    rewrite Hw, Hrun. reflexivity.
  - intros e Hmiss Hexec. split; [|intros k; apply get_adds_no_entry].
    unfold QueryOptimizer.get_cached_or_execute.
    destruct (get cache q params now_get) as [cache1 cached] eqn:E.
    cbn [snd fst] in *. subst cached.
    destruct (QueryOptimizer.optimize_query q query_type) as [optimized applied].
    cbn [fst] in Hexec. now rewrite Hexec.
Qed.

End ExecutionFacts.

Lemma failed_execution_records_nothing_witness :
  SampleWarehouse.execute_query_with_cost_control OptimizedBigQueryManager.init
    "SELECT page, views FROM pages" "dashboard" 12
  = (OptimizedBigQueryManager.init, [], Raise (ExternalError "timeout")) /\
  SampleWarehouse.get_cached_or_execute (QueryCache.new 3600)
    "SELECT page, views FROM pages" SampleWarehouse.executor_func "dashboard" None 5 6 7
  = (fst (SampleCache.get (QueryCache.new 3600) "SELECT page, views FROM pages" None 5),
     Raise (ExternalError "timeout")).
Proof.
  destruct (failed_execution_records_nothing unit Z (list Z)
              SampleCache.json_dumps_sorted SampleCache.params_is_empty
              SampleCache.md5_hexdigest SampleWarehouse.dry_run SampleWarehouse.run_query
              SampleWarehouse.load_cost_row OptimizedBigQueryManager.init
              "SELECT page, views FROM pages" "dashboard" 12 (QueryCache.new 3600)
              SampleWarehouse.executor_func None 5 6 7) as [_ [H2 H3]].
  split.
  - apply H2; reflexivity.
  - apply H3; reflexivity.
Defined.

(** * Further properties of the code *)

(** ** The query cache, further *)

Section CacheExtraFacts.

Variables Params Data : Type.
Variable json_dumps_sorted : Params -> string.
Variable params_is_empty : Params -> bool.
Variable md5_hexdigest : string -> string.

Local Abbreviation key := (QueryCache.get_cache_key Params json_dumps_sorted params_is_empty md5_hexdigest).
Local Abbreviation get := (QueryCache.get Params Data json_dumps_sorted params_is_empty md5_hexdigest).
Local Abbreviation set := (QueryCache.set Params Data json_dumps_sorted params_is_empty md5_hexdigest).

(** What a successful [set] leaves behind. *)
Lemma set_ok_inv (self self' : QueryCache.t Data) (q : string) (d : option Data)
    (ttl : option Z) (p : option Params) (n1 n2 : Z) :
  set self q d ttl p n1 n2 = Ok self' ->
  exists ex,
    ex = n1 + QueryCache.ttl_or_default Data self ttl * 1000000 /\
    0 <= ex <= datetime_max /\
    self' = {| QueryCache.cache :=
                 <[ key q p := {| QueryCache.data := d; QueryCache.expires := ex;
                                  QueryCache.query := String.substring 0 100 q;
                                  QueryCache.cached_at := n2 |} ]> (QueryCache.cache self);
               QueryCache.default_ttl := QueryCache.default_ttl self;
               QueryCache.hit_count := QueryCache.hit_count self;
               QueryCache.miss_count := QueryCache.miss_count self |}.
Proof.
  unfold QueryCache.set, timedelta_seconds, datetime_add.
  destruct (_ && _)%bool; cbn [bind]; [|discriminate].
  destruct (Z.leb_spec 0 (n1 + QueryCache.ttl_or_default Data self ttl * 1000000));
    destruct (Z.leb_spec (n1 + QueryCache.ttl_or_default Data self ttl * 1000000) datetime_max);
    cbn [andb bind]; try discriminate.
  intros Hs. inversion Hs. eexists. split; [reflexivity|]. split; [lia|reflexivity].
Qed.

(** X1: a [get] before the expiry of an entry stored by [set] returns the
    stored payload and counts a hit; the entry stays. *)
Theorem get_after_set_hits (self self' : QueryCache.t Data) (q : string) (d : option Data)
    (ttl : option Z) (p : option Params) (n1 n2 now : Z) :
  set self q d ttl p n1 n2 = Ok self' ->
  now < n1 + QueryCache.ttl_or_default Data self ttl * 1000000 ->
  get self' q p now
  = ({| QueryCache.cache := QueryCache.cache self';
        QueryCache.default_ttl := QueryCache.default_ttl self;
        QueryCache.hit_count := QueryCache.hit_count self + 1;
        QueryCache.miss_count := QueryCache.miss_count self |}, d).
Proof.
  intros Hset Hnow. destruct (set_ok_inv _ _ _ _ _ _ _ _ Hset) as [ex [Hex [_ ->]]].
  unfold QueryCache.get. cbn [QueryCache.cache]. rewrite lookup_insert_eq.
  cbn [QueryCache.expires QueryCache.data QueryCache.default_ttl QueryCache.hit_count
         QueryCache.miss_count].
  destruct (Z.ltb_spec now ex); [reflexivity|lia].
Qed.

(** X2: a [get] at or after the expiry of an entry is a miss that removes
    the entry and no other; the next [get] of the key misses again. *)
Theorem get_expired_evicts (self : QueryCache.t Data) (q : string) (p : option Params)
    (e : QueryCache.entry Data) (now now' : Z) :
  QueryCache.cache self !! key q p = Some e ->
  QueryCache.expires e <= now ->
  snd (get self q p now) = None /\
  QueryCache.cache (fst (get self q p now)) = delete (key q p) (QueryCache.cache self) /\
  QueryCache.miss_count (fst (get self q p now)) = QueryCache.miss_count self + 1 /\
  QueryCache.hit_count (fst (get self q p now)) = QueryCache.hit_count self /\
  snd (get (fst (get self q p now)) q p now') = None.
Proof.
  intros He Hexp. unfold QueryCache.get at 1 2 3 4 5. rewrite He.
  destruct (Z.ltb_spec now (QueryCache.expires e)); [lia|]. cbn [fst snd QueryCache.cache
    QueryCache.miss_count QueryCache.hit_count].
  repeat split.
  unfold QueryCache.get. rewrite He.
  destruct (Z.ltb_spec now (QueryCache.expires e)); [lia|]. cbn [fst QueryCache.cache].
  now rewrite lookup_delete_eq.
Qed.

(** X3: [clear_expired] keeps exactly the entries whose expiry is still
    ahead, and leaves the counters as they are. *)
Theorem clear_expired_keeps_live_entries (self : QueryCache.t Data) (now : Z) (k : string)
    (e : QueryCache.entry Data) :
  (QueryCache.cache (QueryCache.clear_expired Data self now) !! k = Some e <->
   QueryCache.cache self !! k = Some e /\ now < QueryCache.expires e) /\
  QueryCache.hit_count (QueryCache.clear_expired Data self now) = QueryCache.hit_count self /\
  QueryCache.miss_count (QueryCache.clear_expired Data self now) = QueryCache.miss_count self.
Proof.
  split; [|split; reflexivity].
  unfold QueryCache.clear_expired. cbn [QueryCache.cache].
  rewrite map_lookup_filter_Some. cbn [snd]. split; intros [H1 H2]; split; auto; lia.
Qed.


(** X4: setting a key again replaces its entry: two [set]s on one key leave
    the cache as the second alone would, and no [set] changes the entry of
    another key. *)
Theorem set_overwrites (self s1 s2 : QueryCache.t Data) (q : string) (d1 d2 : option Data)
    (ttl1 ttl2 : option Z) (p : option Params) (n1 n2 m1 m2 : Z) :
  set self q d1 ttl1 p n1 n2 = Ok s1 ->
  set s1 q d2 ttl2 p m1 m2 = Ok s2 ->
  set self q d2 ttl2 p m1 m2 = Ok s2 /\
  forall k : string, k <> key q p -> QueryCache.cache s2 !! k = QueryCache.cache self !! k.
Proof.
  intros H1 H2. destruct (set_ok_inv _ _ _ _ _ _ _ _ H1) as [ex1 [_ [_ ->]]].
  split.
  - rewrite <- H2. unfold QueryCache.set, QueryCache.ttl_or_default.
    cbn [QueryCache.default_ttl QueryCache.cache QueryCache.hit_count QueryCache.miss_count].
    destruct (timedelta_seconds _); cbn [bind]; [|reflexivity].
    destruct (datetime_add _ _); cbn [bind]; [|reflexivity].
    now rewrite insert_insert_eq.
  - intros k Hk. destruct (set_ok_inv _ _ _ _ _ _ _ _ H2) as [ex2 [_ [_ ->]]].
    cbn [QueryCache.cache]. now rewrite !lookup_insert_ne by congruence.
Qed.

End CacheExtraFacts.

Section CachedExecutionFacts.

Variables Params Data : Type.
Variable json_dumps_sorted : Params -> string.
Variable params_is_empty : Params -> bool.
Variable md5_hexdigest : string -> string.

Local Abbreviation key := (QueryCache.get_cache_key Params json_dumps_sorted params_is_empty md5_hexdigest).
Local Abbreviation get := (QueryCache.get Params Data json_dumps_sorted params_is_empty md5_hexdigest).
Local Abbreviation set := (QueryCache.set Params Data json_dumps_sorted params_is_empty md5_hexdigest).
Local Abbreviation get_cached_or_execute :=
  (QueryOptimizer.get_cached_or_execute Params Data json_dumps_sorted params_is_empty
     md5_hexdigest).

Lemma cache_ttl_of_values (query_type : string) :
  In (QueryOptimizer.cache_ttl_of query_type) [3600; 7200; 86400; 300; 1800].
Proof.
  unfold QueryOptimizer.cache_ttl_of, QueryOptimizer.CACHE_PATTERNS.
  cbn [QueryOptimizer.dict_get].
  repeat match goal with
         | |- context [if ?c then _ else _] => destruct c
         end; simpl; auto 10.
Qed.

Lemma ttl_or_default_of_category (self : QueryCache.t Data) (query_type : string) :
  QueryCache.ttl_or_default Data self (Some (QueryOptimizer.cache_ttl_of query_type))
  = QueryOptimizer.cache_ttl_of query_type.
Proof.
  unfold QueryCache.ttl_or_default.
  pose proof (cache_ttl_of_values query_type) as H. simpl in H.
  destruct (Z.eqb_spec (QueryOptimizer.cache_ttl_of query_type) 0); [lia|reflexivity].
Qed.

(** X5: when the cache has a live entry with a payload, the payload is
    returned and a hit is counted; the executor is not consulted, so the
    outcome is the same for every executor, also a failing one. *)
Theorem cached_payload_is_served (self : QueryCache.t Data) (q query_type : string)
    (executor_func : string -> result (option Data)) (p : option Params)
    (e : QueryCache.entry Data) (v : Data) (now n1 n2 : Z) :
  QueryCache.cache self !! key q p = Some e ->
  now < QueryCache.expires e ->
  QueryCache.data e = Some v ->
  get_cached_or_execute self q executor_func query_type p now n1 n2
  = ({| QueryCache.cache := QueryCache.cache self;
        QueryCache.default_ttl := QueryCache.default_ttl self;
        QueryCache.hit_count := QueryCache.hit_count self + 1;
        QueryCache.miss_count := QueryCache.miss_count self |}, Ok (Some v)).
Proof.
  intros He Hnow Hv. unfold QueryOptimizer.get_cached_or_execute, QueryCache.get.
  rewrite He. destruct (Z.ltb_spec now (QueryCache.expires e)); [|lia].
  now rewrite Hv.
Qed.

(** X6: a cached payload that is [None] is not told from a miss: the lookup
    counts a hit, and the query is executed all the same, so an executor that
    fails makes the call fail. *)
Theorem cached_none_is_executed_again (self : QueryCache.t Data) (q query_type : string)
    (executor_func : string -> result (option Data)) (p : option Params)
    (e : QueryCache.entry Data) (err : py_exn) (now n1 n2 : Z) :
  QueryCache.cache self !! key q p = Some e ->
  now < QueryCache.expires e ->
  QueryCache.data e = None ->
  executor_func (fst (QueryOptimizer.optimize_query q query_type)) = Raise err ->
  get_cached_or_execute self q executor_func query_type p now n1 n2
  = ({| QueryCache.cache := QueryCache.cache self;
        QueryCache.default_ttl := QueryCache.default_ttl self;
        QueryCache.hit_count := QueryCache.hit_count self + 1;
        QueryCache.miss_count := QueryCache.miss_count self |}, Raise err).
Proof.
  intros He Hnow Hv Hex. unfold QueryOptimizer.get_cached_or_execute, QueryCache.get.
  rewrite He. destruct (Z.ltb_spec now (QueryCache.expires e)); [|lia].
  rewrite Hv. destruct (QueryOptimizer.optimize_query q query_type) as [o a].
  cbn [fst] in Hex. now rewrite Hex.
Qed.

(** X7: a result obtained on a miss is stored under the key of the query
    with the expiry of its category: the time of the [set] plus the TTL of
    [CACHE_PATTERNS] (3600 s for a category not listed). An equal call before
    that expiry returns the result from the cache, whatever the executor
    would do then; an equal call at or after it consults the executor again,
    so that one that fails makes the call fail. *)
Theorem executed_result_is_cached (self self1 : QueryCache.t Data) (q query_type : string)
    (executor_func : string -> result (option Data)) (p : option Params)
    (v : Data) (now n1 n2 : Z) :
  get_cached_or_execute self q executor_func query_type p now n1 n2 = (self1, Ok (Some v)) ->
  snd (get self q p now) = None ->
  let ex := n1 + QueryOptimizer.cache_ttl_of query_type * 1000000 in
  QueryCache.cache self1 !! key q p
  = Some {| QueryCache.data := Some v; QueryCache.expires := ex;
            QueryCache.query := String.substring 0 100 q;
            QueryCache.cached_at := n2 |} /\
  (forall (executor_func' : string -> result (option Data)) (now' m1 m2 : Z),
     now' < ex ->
     snd (get_cached_or_execute self1 q executor_func' query_type p now' m1 m2)
     = Ok (Some v)) /\
  (forall (executor_func' : string -> result (option Data)) (now' m1 m2 : Z) (err : py_exn),
     ex <= now' ->
     executor_func' (fst (QueryOptimizer.optimize_query q query_type)) = Raise err ->
     snd (get_cached_or_execute self1 q executor_func' query_type p now' m1 m2)
     = Raise err).
Proof.
  unfold QueryOptimizer.get_cached_or_execute at 1.
  destruct (get self q p now) as [self0 cached] eqn:Eg. cbn [snd].
  intros H Hmiss. subst cached.
  set (ex := n1 + QueryOptimizer.cache_ttl_of query_type * 1000000).
  destruct (QueryOptimizer.optimize_query q query_type) as [o a] eqn:Eo.
  destruct (executor_func o) as [res|err]; [|inversion H].
  destruct (set self0 q res (Some (QueryOptimizer.cache_ttl_of query_type)) p n1 n2)
    as [self2|err] eqn:Es; inversion H; subst.
  destruct (set_ok_inv Params Data json_dumps_sorted params_is_empty md5_hexdigest
              _ _ _ _ _ _ _ _ Es) as [ex' [Hex [_ ->]]].
  rewrite ttl_or_default_of_category in Hex. fold ex in Hex. subst ex'.
  cbn [QueryCache.cache]. split; [apply lookup_insert_eq|]. split.
  - intros executor_func' now' m1 m2 Hnow.
    unfold QueryOptimizer.get_cached_or_execute, QueryCache.get.
    cbn [QueryCache.cache]. rewrite lookup_insert_eq.
    cbn [QueryCache.expires QueryCache.data].
    destruct (Z.ltb_spec now' ex); [reflexivity|lia].
  - intros executor_func' now' m1 m2 err Hnow Hexec.
    unfold QueryOptimizer.get_cached_or_execute, QueryCache.get.
    cbn [QueryCache.cache]. rewrite lookup_insert_eq.
    cbn [QueryCache.expires QueryCache.data].
    destruct (Z.ltb_spec now' ex); [lia|]. rewrite Eo. cbn [fst] in Hexec.
    now rewrite Hexec.
Qed.

End CachedExecutionFacts.


(** ** The cost monitor, further *)

Section CostMonitorExtraFacts.

Import CostMonitor Scenario.

(** [_check_limits] touches no field but the emergency stop. *)
Lemma check_limits_frame (self : monitor) :
  thresholds (fst (_check_limits self)) = thresholds self /\
  current_hour_queries (fst (_check_limits self)) = current_hour_queries self /\
  current_day_queries (fst (_check_limits self)) = current_day_queries self /\
  current_day_cost (fst (_check_limits self)) = current_day_cost self /\
  current_month_cost (fst (_check_limits self)) = current_month_cost self.
Proof.
  unfold _check_limits.
  destruct (current_day_queries self >? _); cbn [set_emergency_stop fst current_day_cost current_month_cost];
    destruct (fgt (current_day_cost self) _); cbn [set_emergency_stop fst current_day_cost current_month_cost];
    destruct (fgt (current_month_cost self) _); cbn; repeat split.
Qed.

(** X8: a run of usage updates adds one to the hour and day query counts per
    update and adds the costs, in order, to the day and month cost; the
    thresholds stay as they are. *)
Theorem usage_updates_accumulate (us : list (Z * float)) :
  forall self : monitor,
    let self' := run self (map (fun u => UpdateUsage (fst u) (snd u)) us) in
    thresholds self' = thresholds self /\
    current_hour_queries self' = current_hour_queries self + Z.of_nat (length us) /\
    current_day_queries self' = current_day_queries self + Z.of_nat (length us) /\
    current_day_cost self' = fold_left fadd (map snd us) (current_day_cost self) /\
    current_month_cost self' = fold_left fadd (map snd us) (current_month_cost self).
Proof.
  induction us as [|[b c] us IH]; intros self; [cbn; repeat split; lia|].
  cbn zeta in *. unfold run in *. cbn [map fold_left fst snd step].
  destruct (IH (fst (update_usage self b c))) as [H1 [H2 [H3 [H4 H5]]]].
  rewrite H1, H2, H3, H4, H5. clear IH H1 H2 H3 H4 H5.
  unfold update_usage.
  destruct (check_limits_frame
              {| thresholds := thresholds self;
                 current_hour_queries := current_hour_queries self + 1;
                 current_day_queries := current_day_queries self + 1;
                 current_day_cost := fadd (current_day_cost self) c;
                 current_month_cost := fadd (current_month_cost self) c;
                 emergency_stop := emergency_stop self |}) as [F1 [F2 [F3 [F4 F5]]]].
  rewrite F1, F2, F3, F4, F5. cbn [thresholds current_hour_queries current_day_queries
    current_day_cost current_month_cost length]. repeat split; lia.
Qed.

(** X9: [update_usage] sets the emergency stop exactly when it sends an
    alert that announces the suspension, that is when the day's query count,
    the day's cost or the month's cost after the update exceeds its limit;
    exceeding the hourly query limit only sends a warning. *)
Theorem update_usage_stops_on_suspending_alert (self : monitor) (b : Z) (cost : float) :
  let th := thresholds self in
  let hourly := current_hour_queries self + 1 >? queries_per_hour_limit th in
  let breach :=
    (current_day_queries self + 1 >? queries_per_day_limit th)
    || fgt (fadd (current_day_cost self) cost) (daily_limit th)
    || fgt (fadd (current_month_cost self) cost) (monthly_limit th) in
  emergency_stop (fst (update_usage self b cost)) = emergency_stop self || breach /\
  existsb suspends (snd (update_usage self b cost)) = breach /\
  existsb (fun a => negb (suspends a)) (snd (update_usage self b cost)) = hourly.
Proof.
  cbn zeta. unfold update_usage, _check_limits.
  cbn [thresholds current_hour_queries current_day_queries current_day_cost current_month_cost].
  destruct (current_hour_queries self + 1 >? _);
    destruct (current_day_queries self + 1 >? _);
    cbn [set_emergency_stop fst snd current_day_cost current_month_cost thresholds];
    destruct (fgt (fadd (current_day_cost self) cost) _);
    cbn [set_emergency_stop fst snd current_day_cost current_month_cost thresholds];
    destruct (fgt (fadd (current_month_cost self) cost) _);
    cbn; rewrite ?orb_true_r, ?orb_false_r; repeat split; reflexivity.
Qed.

(** X10: when the estimate is computed, [check_query_cost] approves exactly
    the requests that exceed none of the three limits, and an approval is a
    warning exactly when the estimate exceeds the warning level. *)
Theorem check_query_cost_approves (self : monitor) (b : Z) (cost : float) :
  estimated_cost b = Ok cost ->
  exists d,
    check_query_cost self b = Ok d /\
    approved d =
      negb (fgt cost (query_cost_limit (thresholds self)))
      && negb (b >? bytes_per_query_limit (thresholds self))
      && negb (fgt (fadd (current_day_cost self) cost) (daily_limit (thresholds self))) /\
    (approved d = true ->
     severity d = if fgt cost (query_cost_warning (thresholds self)) then WARNING else INFO).
Proof.
  intros Hc. unfold check_query_cost. rewrite Hc. cbn [bind].
  destruct (fgt cost (query_cost_limit (thresholds self)));
    [eexists; cbn; repeat split; discriminate|].
  destruct (b >? bytes_per_query_limit (thresholds self));
    [eexists; cbn; repeat split; discriminate|].
  destruct (fgt (fadd (current_day_cost self) cost) (daily_limit (thresholds self)));
    [eexists; cbn; repeat split; discriminate|].
  destruct (fgt cost (query_cost_warning (thresholds self))); eexists; cbn; repeat split.
Qed.

(** X11: right after a day rollover and a month rollover the status is
    healthy and the emergency stop is off, whatever was spent before; a limit
    of zero makes [get_cost_status] raise [ZeroDivisionError] instead. *)
Theorem status_after_rollovers (self : monitor) :
  let self' := reset_monthly_counters (reset_daily_counters self) in
  let th := thresholds self in
  (is_zero (daily_limit th) || is_zero (monthly_limit th) = false ->
   exists st, get_cost_status self' = Ok st /\
              status st = HEALTHY /\ status_emergency_stop st = false) /\
  (is_zero (daily_limit th) || is_zero (monthly_limit th) = true ->
   get_cost_status self' = Raise ZeroDivisionError).
Proof.
  cbn zeta. unfold get_cost_status, reset_monthly_counters, reset_daily_counters.
  cbn [thresholds current_day_cost current_month_cost emergency_stop].
  destruct (daily_limit (thresholds self)) as [s1| [|] | |[|] m1 e1];
    destruct (monthly_limit (thresholds self)) as [s2| [|] | |[|] m2 e2];
    cbn; split; intros H; try discriminate; try reflexivity;
    eexists; repeat split.
Qed.

End CostMonitorExtraFacts.

(** ** Magnitude of the cost estimate *)

Section FloatBoundFacts.

(** A rounding keeps the sign. *)
Lemma binary_round_aux_sign (s : bool) (mx ex : Z) (lx : location) :
  0 <= mx ->
  binary_round_aux 53 1024 s mx ex lx = S754_zero s \/
  binary_round_aux 53 1024 s mx ex lx = S754_infinity s \/
  exists m e, binary_round_aux 53 1024 s mx ex lx = S754_finite s m e.
Proof.
  intros Hm. destruct (binary_round_aux_spec s mx ex lx Hm) as [mr [Hmr ->]].
  cbv zeta in Hmr.
  assert (H0 : 0 <= mx / 2 ^ Z.max 0 (F (Zdigits2 mx + ex) - ex))
    by (apply Z.div_pos; [assumption|apply pow2_pos; lia]).
  match goal with
  | |- context [mr / ?d] =>
      assert (H2 : 0 <= mr / d) by (apply Z.div_pos; [lia|apply pow2_pos; lia]);
      destruct (mr / d) as [|m|m]; [now left| |lia]
  end.
  match goal with
  | |- context [if ?c then _ else _] => destruct c
  end; eauto.
Qed.

(** The exponent and the magnitude of a rounded value, from those of the
    value that is rounded. *)
Lemma binary_round_aux_magnitude (s : bool) (mx ex : Z) (lx : location) (K E : Z)
    (m : positive) (e : Z) :
  0 <= mx -> Zdigits2 mx + ex <= K -> ex <= E ->
  binary_round_aux 53 1024 s mx ex lx = S754_finite s m e ->
  e <= Z.max E (Z.max (K - 52) (-1074)) /\
  Zdigits2 (Zpos m) + e <= Z.max (K + 1) (Z.max (E + 1) (-1073)).
Proof.
  intros Hm HK HE.
  destruct (binary_round_aux_spec s mx ex lx Hm) as [mr [Hmr ->]].
  cbv zeta in Hmr.
  pose proof (Zdigits2_nonneg mx) as Hd0.
  set (d := Zdigits2 mx) in *.
  set (n1 := Z.max 0 (F (d + ex) - ex)) in *.
  assert (Hn1 : 0 <= n1) by (unfold n1; lia).
  assert (Hmx : mx < 2 ^ d).
  { destruct (Z.eq_dec mx 0) as [->|]; [apply pow2_pos; lia|].
    apply Zdigits2_bounds. lia. }
  assert (Hm1 : 0 <= mx / 2 ^ n1 < 2 ^ Z.max (d - n1) 0).
  { split; [apply Z.div_pos; [assumption|apply pow2_pos; lia]|].
    apply Z.div_lt_upper_bound; [apply pow2_pos; lia|].
    rewrite pow2_split by lia.
    apply Z.lt_le_trans with (2 ^ d); [assumption|].
    apply Z.pow_le_mono_r; lia. }
  assert (Hmr2 : 0 <= mr < 2 ^ (Z.max (d - n1) 0 + 1)).
  { rewrite Z.pow_add_r by lia. change (2 ^ 1) with 2. lia. }
  assert (Hdr : Zdigits2 mr <= Z.max (d - n1) 0 + 1) by (apply Zdigits2_le; lia).
  pose proof (Zdigits2_nonneg mr) as Hdr0.
  set (dr := Zdigits2 mr) in *.
  set (n2 := Z.max 0 (F (dr + (ex + n1)) - (ex + n1))) in *.
  assert (Hn2 : 0 <= n2) by (unfold n2; lia).
  destruct (mr / 2 ^ n2) as [|m2|m2] eqn:Em2; [discriminate| |discriminate].
  destruct (ex + n1 + n2 <=? 971); [|discriminate].
  intros H. inversion H; subst m2 e. clear H.
  assert (Hm2 : Zpos m * 2 ^ n2 <= mr).
  { rewrite <- Em2. rewrite Z.mul_comm. apply Z.mul_div_le. apply pow2_pos; lia. }
  assert (Hmr0 : 0 < mr) by (pose proof (pow2_pos n2 Hn2); nia).
  destruct (Zdigits2_bounds mr Hmr0) as [_ Hhi]. fold dr in Hhi.
  assert (Hn2dr : n2 < dr).
  { apply (Z.pow_lt_mono_r_iff 2); [lia|lia|].
    pose proof (pow2_pos n2 Hn2). nia. }
  assert (Hdm : Zdigits2 (Zpos m) <= dr - n2).
  { apply Zdigits2_le; [lia|lia|].
    apply (Z.mul_lt_mono_pos_r (2 ^ n2)); [apply pow2_pos; lia|].
    rewrite pow2_split by lia. replace (dr - n2 + n2) with dr by lia. lia. }
  unfold n2, n1, F in *. lia.
Qed.


(** The estimate of a byte count within the default byte limit is below
    every cost level of the default thresholds. *)
Lemma small_estimate (b : Z) (c : float) :
  b <= 100000000 ->
  CostMonitor.estimated_cost b = Ok c ->
  c = S754_zero false \/ c = S754_zero true \/ c = S754_infinity true \/
  (exists m e, c = S754_finite true m e) \/
  (exists m e, c = S754_finite false m e /\ e <= -60).
Proof.
  intros Hb. unfold CostMonitor.estimated_cost, int_truediv. rewrite five_dollars.
  destruct b as [|p|p].
  - cbn [bind]. intros H. inversion H. now left.
  - unfold raw_quotient, prec, emax, SFdiv.
    destruct (SFdiv_core_ints p 1000000000000) as [l ->]. cbv zeta.
    change (Zdigits2 1000000000000) with 40.
    pose proof (Zdigits2_pos (Zpos p) ltac:(lia)) as Hd1.
    assert (Hd27 : Zdigits2 (Zpos p) <= 27).
    { apply Zdigits2_le; [lia|lia|]. change (2 ^ 27) with 134217728. lia. }
    destruct (Zdigits2_bounds (Zpos p) ltac:(lia)) as [_ Hhi].
    set (d1 := Zdigits2 (Zpos p)) in *.
    assert (He' : Z.min (F (d1 - 40)) 0 = d1 - 93) by (unfold F; lia).
    rewrite He'. replace (- (d1 - 93)) with (93 - d1) by lia.
    set (q := Zpos p * 2 ^ (93 - d1) / 1000000000000).
    assert (Hq : 0 <= q < 2 ^ 54).
    { unfold q. split; [apply Z.div_pos; [|lia]; pose proof (pow2_pos (93 - d1)); nia|].
      apply Z.div_lt_upper_bound; [lia|].
      assert (H93 : Zpos p * 2 ^ (93 - d1) < 2 ^ d1 * 2 ^ (93 - d1)).
      { apply Z.mul_lt_mono_pos_r; [apply pow2_pos; lia|assumption]. }
      rewrite pow2_split in H93 by lia. replace (d1 + (93 - d1)) with 93 in H93 by lia.
      change (2 ^ 93) with 9903520314283042199192993792 in H93.
      change (2 ^ 54) with 18014398509481984. lia. }
    assert (Hdq : Zdigits2 q <= 54) by (apply Zdigits2_le; lia).
    destruct (binary_round_aux_sign false q (d1 - 93) l ltac:(lia)) as [Hz|[Hi|[m [e Hf]]]].
    + cbn [xorb]. rewrite Hz. cbn. intros H; inversion H. now left.
    + cbn [xorb]. rewrite Hi. cbn. discriminate.
    + cbn [xorb]. rewrite Hf. cbn [is_infinity bind].
      destruct (binary_round_aux_magnitude false q (d1 - 93) l (-12) (-66) m e
                  ltac:(lia) ltac:(lia) ltac:(lia) Hf) as [Hem Hdm].
      intros H. inversion H. clear H.
      unfold fmul, prec, emax, SFmul. cbn [xorb].
      set (mx := Zpos (m * 5629499534213120)).
      assert (Hmx : Zdigits2 mx <= Zdigits2 (Zpos m) + 53).
      { apply Zdigits2_le; [unfold mx; lia|pose proof (Zdigits2_nonneg (Zpos m)); lia|].
        destruct (Zdigits2_bounds (Zpos m) ltac:(lia)) as [_ Hm].
        rewrite <- pow2_split by (pose proof (Zdigits2_nonneg (Zpos m)); lia).
        change (2 ^ 53) with 9007199254740992. unfold mx.
        rewrite Pos2Z.inj_mul. nia. }
      destruct (binary_round_aux_sign false mx (e + -50) loc_Exact ltac:(unfold mx; lia))
        as [Hz|[Hi|[m' [e' Hf']]]].
      * now left.
      * exfalso.
        destruct (binary_round_aux_no_overflow false mx (e + -50) loc_Exact)
          as [Hz|[m' [e' [Hf' _]]]]; try congruence; [unfold mx; lia|lia|].
        apply Z.lt_le_trans with (2 ^ Zdigits2 mx).
        { apply Zdigits2_bounds. unfold mx. lia. }
        apply Z.pow_le_mono_r; lia.
      * right. right. right. right. exists m', e'. split; [assumption|].
        destruct (binary_round_aux_magnitude false mx (e + -50) loc_Exact (-8) (-114) m' e'
                    ltac:(unfold mx; lia) ltac:(lia) ltac:(lia) Hf') as [He'' _].
        lia.
  - unfold raw_quotient, prec, emax, SFdiv.
    destruct (SFdiv_core_ints p 1000000000000) as [l ->]. cbv zeta. cbn [xorb].
    match goal with
    | |- context [binary_round_aux 53 1024 true ?q ?e l] =>
        assert (Hq : 0 <= q);
        [|destruct (binary_round_aux_sign true q e l Hq) as [Hz|[Hi|[m [e0 Hf]]]]]
    end.
    + apply Z.div_pos; [|lia].
      match goal with |- 0 <= _ * 2 ^ ?k => pose proof (pow2_pos k) end.
      assert (0 <= - Z.min (F (Zdigits2 (Zpos p) - Zdigits2 1000000000000)) 0) by lia.
      nia.
    + rewrite Hz. cbn. intros H; inversion H. auto.
    + rewrite Hi. cbn. discriminate.
    + rewrite Hf. cbn [is_infinity bind]. intros H; inversion H. clear H.
      unfold fmul, prec, emax, SFmul. cbn [xorb].
      destruct (binary_round_aux_sign true (Zpos (m * 5629499534213120)) (e0 + -50)
                  loc_Exact ltac:(lia)) as [Hz'|[Hi'|[m' [e' Hf']]]]; eauto 10.
Qed.


Lemma small_estimate_below (b : Z) (c : float) (m : positive) (e : Z) :
  b <= 100000000 -> CostMonitor.estimated_cost b = Ok c -> -60 < e ->
  fgt c (S754_finite false m e) = false.
Proof.
  intros Hb Hc He.
  destruct (small_estimate b c Hb Hc) as [->|[->|[->|[[m' [e' ->]]|[m' [e' [-> He']]]]]]];
    try reflexivity.
  unfold fgt, SFltb, SFcompare.
  destruct (Z.compare_spec e e'); try lia; reflexivity.
Qed.

End FloatBoundFacts.

Section DefaultThresholdFacts.

Import CostMonitor.

(** X12: with the default thresholds the high-cost warning cannot occur: a
    byte count within the 100 MB limit costs less than the warning level of
    $0.10, so every answer of [check_query_cost] is either a rejection or an
    approval of severity INFO, and a rejection for the cost of the query is
    a rejection of a query above the byte limit. *)
Theorem default_thresholds_never_warn (self : monitor) (b : Z) (d : decision) :
  thresholds self = default_thresholds ->
  check_query_cost self b = Ok d ->
  (approved d = false /\ severity d = CRITICAL \/ approved d = true /\ severity d = INFO) /\
  (forall c l, info d = ReasonCostExceedsLimit c l -> b > 100000000).
Proof.
  intros Hth. unfold check_query_cost. rewrite Hth.
  destruct (estimated_cost b) as [c|err] eqn:Ec; cbn [bind]; [|discriminate].
  cbn [query_cost_limit bytes_per_query_limit daily_limit query_cost_warning default_thresholds].
  change (literal 100 2) with (S754_finite false 4503599627370496 (-52)).
  change (literal 10 2) with (S754_finite false 7205759403792794 (-56)).
  destruct (Z.gtb_spec b 100000000) as [Hbig|Hsmall].
  - destruct (fgt c _); intros H; inversion H; cbn; split; auto;
      intros ? ? Hi; try discriminate; lia.
  - rewrite !(small_estimate_below b c _ _ Hsmall Ec) by lia.
    destruct (fgt (fadd _ _) _); intros H; inversion H; cbn; split; auto;
      intros ? ? Hi; discriminate.
Qed.

End DefaultThresholdFacts.


(** ** Replacement and the rewriting rules, further *)

Section ReplaceFacts.
Local Open Scope string_scope.

Lemma startswith_app_suffix (c : ascii) (suf p : string) :
  count_char c p = 0%nat ->
  forall s, startswith p (s +:+ String c suf) = startswith p s.
Proof.
  induction p as [|a p IH]; intros Hc s; [reflexivity|].
  simpl in Hc. destruct (Ascii.eqb_spec c a) as [->|Hne]; [discriminate|].
  destruct s as [|b s].
  - simpl. destruct (Ascii.eqb_spec a c) as [->|]; [congruence|reflexivity].
  - rewrite append_cons. cbn [startswith]. destruct (Ascii.eqb a b); [|reflexivity].
    apply IH. lia.
Qed.

(** A suffix that no occurrence of the pattern can reach is left in place. *)
Lemma replace_app_suffix (o c : ascii) (old' new suf : string) (n : nat) :
  count_char c (String o old') = 0%nat ->
  count_char o (String c suf) = 0%nat ->
  forall s, (String.length s <= n)%nat ->
    replace (String o old') new (s +:+ String c suf)
    = replace (String o old') new s +:+ String c suf.
Proof.
  intros Hc Ho. unfold replace. induction n as [|n IH]; intros s Hlen.
  - destruct s; [|simpl in Hlen; lia].
    change ("" +:+ String c suf) with (String c suf).
    apply (replace_absent o old' new (String c suf) Ho).
  - destruct s as [|b s]; [apply (replace_absent o old' new (String c suf) Ho)|].
    destruct (startswith (String o old') (String b s)) eqn:E.
    + destruct (startswith_split _ _ E) as [rest Hs]. rewrite Hs, append_assoc.
      rewrite !(replace_from_match _ new o old' _ eq_refl), append_assoc. f_equal.
      apply IH.
      assert (Hl : String.length (String b s) = String.length (String o old' +:+ rest))
        by now rewrite Hs.
      rewrite length_app in Hl. simpl in Hl, Hlen. lia.
    + pose proof (startswith_app_suffix c suf _ Hc (String b s)) as E'. rewrite E in E'.
      rewrite append_cons in *. cbn [replace_from]. rewrite E, E'. rewrite append_cons.
      f_equal. apply IH. simpl in Hlen. lia.
Qed.

Lemma contains_app_r (p s t : string) :
  contains p t = true -> contains p (s +:+ t) = true.
Proof.
  intros H. induction s as [|b s IH]; [exact H|].
  rewrite append_cons. cbn [contains]. rewrite IH.
  now destruct (startswith p (String b (s +:+ t))).
Qed.

Lemma contains_refl_app (p t : string) : contains p (p +:+ t) = true.
Proof.
  pose proof (startswith_app p t) as H.
  destruct (p +:+ t); cbn [contains]; now rewrite H.
Qed.

(** Text whose characters cannot start the pattern passes through a
    replacement. *)
Lemma replace_from_passes (o : ascii) (old' new p rest : string) :
  count_char o p = 0%nat ->
  replace_from (String o old') new 0 (p +:+ rest)
  = p +:+ replace_from (String o old') new 0 rest.
Proof.
  induction p as [|a p IH]; intros Ho; [reflexivity|].
  simpl in Ho. rewrite !append_cons. cbn [replace_from startswith].
  destruct (Ascii.eqb o a); [discriminate|]. f_equal. apply IH. lia.
Qed.

Lemma contains_skip_prefix (x : ascii) (p' old rest : string) :
  count_char x old = 0%nat ->
  contains (String x p') (old +:+ rest) = true -> contains (String x p') rest = true.
Proof.
  induction old as [|a old IH]; intros Hx H; [exact H|].
  simpl in Hx. destruct (Ascii.eqb_spec x a) as [->|Hne]; [discriminate|].
  rewrite append_cons in H. cbn [contains startswith] in H.
  destruct (Ascii.eqb x a) eqn:Exa; [apply Ascii.eqb_eq in Exa; congruence|].
  apply IH; [lia|exact H].
Qed.

(** A replacement keeps the occurrences of a text that shares no character
    with the first character of the pattern and does not start with a
    character of the pattern. *)
Lemma contains_replace (x o : ascii) (p' old' new : string) (n : nat) :
  count_char x (String o old') = 0%nat ->
  count_char o (String x p') = 0%nat ->
  forall s, (String.length s <= n)%nat ->
    contains (String x p') s = true ->
    contains (String x p') (replace (String o old') new s) = true.
Proof.
  intros Hx Ho. unfold replace. induction n as [|n IH]; intros s Hlen H.
  - destruct s; [exact H|simpl in Hlen; lia].
  - destruct s as [|b s]; [exact H|].
    destruct (startswith (String x p') (String b s)) eqn:Ep.
    + destruct (startswith_split _ _ Ep) as [rest ->].
      rewrite (replace_from_passes o old' new _ rest Ho). apply contains_refl_app.
    + cbn [contains] in H. rewrite Ep in H.
      destruct (startswith (String o old') (String b s)) eqn:Eo.
      * destruct (startswith_split _ _ Eo) as [rest Hs].
        assert (Hrest : contains (String x p') rest = true).
        { apply (contains_skip_prefix x p' (String o old') rest Hx).
          rewrite <- Hs. cbn [contains]. now rewrite Ep. }
        rewrite Hs, (replace_from_match _ new o old' rest eq_refl).
        apply contains_app_r. apply IH; [|assumption].
        assert (Hl : String.length (String b s) = String.length (String o old' +:+ rest))
          by now rewrite Hs.
        rewrite length_app in Hl. simpl in Hl, Hlen. lia.
      * cbn [replace_from]. rewrite Eo. cbn [contains].
        assert (Hl : (String.length s <= n)%nat) by (simpl in Hlen; lia).
        rewrite (IH s Hl H).
        match goal with |- (if ?c then _ else _) = _ => destruct c end; reflexivity.
Qed.

(** [upper] keeps occurrences. *)
Lemma startswith_upper_mono (p s : string) :
  startswith p s = true -> startswith (upper p) (upper s) = true.
Proof.
  revert s. induction p as [|a p IH]; intros s H; [reflexivity|].
  destruct s as [|b s]; [discriminate|]. cbn [startswith upper] in *.
  destruct (Ascii.eqb_spec a b) as [->|]; [|discriminate].
  rewrite Ascii.eqb_refl. now apply IH.
Qed.

Lemma contains_upper_mono (p s : string) :
  contains p s = true -> contains (upper p) (upper s) = true.
Proof.
  induction s as [|b s IH]; cbn [contains upper].
  - destruct (startswith p "") eqn:E; [|discriminate]. intros _.
    apply startswith_upper_mono in E. cbn [upper] in E. now rewrite E.
  - destruct (startswith p (String b s)) eqn:E.
    + intros _. apply startswith_upper_mono in E. cbn [upper] in E. now rewrite E.
    + intros H. rewrite (IH H).
      match goal with |- (if ?c then _ else _) = _ => destruct c end; reflexivity.
Qed.

End ReplaceFacts.

Section OptimizerExtraFacts.
Local Open Scope string_scope.
Import QueryOptimizer.

Lemma apply_rules_cons (r : rule) (rest : list rule) (t : string) (applied : list string) :
  apply_rules (r :: rest) t applied
  = if check r t
    then apply_rules rest (action r t) (applied ++ [description r])
    else apply_rules rest t applied.
Proof. reflexivity. Qed.

Lemma use_approx_functions_suffix (t : string) :
  _use_approx_functions (t +:+ " LIMIT 10000") = _use_approx_functions t +:+ " LIMIT 10000".
Proof.
  unfold _use_approx_functions.
  rewrite (replace_app_suffix "C" " " _ _ "LIMIT 10000" (String.length t)) by (reflexivity || lia).
  now rewrite (replace_app_suffix "A" " " _ _ "LIMIT 10000" (String.length _))
    by (reflexivity || lia).
Qed.

Lemma add_date_filter_keeps_limit (q : string) :
  contains "WHERE" (upper q) = true ->
  contains "LIMIT" q = true -> contains "LIMIT" (_add_date_filter q) = true.
Proof.
  intros Hw H. unfold _add_date_filter. rewrite Hw.
  now apply (contains_replace "L" "W" "IMIT" "HERE" _ (String.length q)).
Qed.

(** X13: when the limit rule is reported, the query had no "LIMIT" and the
    text returned ends with " LIMIT 10000"; the savings estimated for this
    rewriting then include the row-limit factor. *)
Theorem limit_rule_appends_limit (q query_type : string) :
  In "Add LIMIT to prevent scanning entire table" (snd (optimize_query q query_type)) ->
  contains "LIMIT" q = false /\
  (exists body, fst (optimize_query q query_type) = body +:+ " LIMIT 10000") /\
  In "Row limit: -10%"
     (factors (estimate_optimization_savings q (fst (optimize_query q query_type)))).
Proof.
  intros Hin.
  assert (Hmain : contains "LIMIT" q = false /\
                  exists body, fst (optimize_query q query_type) = body +:+ " LIMIT 10000").
  { revert Hin. unfold optimize_query, _load_optimization_rules.
    rewrite apply_rules_cons. cbn [check action description].
    match goal with
    | |- context [apply_rules ?l _ _] => set (rest := l)
    end.
    set (t1 := if contains "WHERE" (upper q) && negb (contains "DATE" (upper q))
               then _add_date_filter q else q).
    assert (Ht1 : contains "LIMIT" q = true -> contains "LIMIT" (upper t1) = true).
    { intros H. apply (contains_upper_mono "LIMIT"). unfold t1.
      destruct (contains "WHERE" (upper q)) eqn:Ew; cbn [andb]; [|assumption].
      destruct (negb _); [now apply add_date_filter_keeps_limit|assumption]. }
    assert (Hgoal :
      forall applied,
        ~ In "Add LIMIT to prevent scanning entire table" applied ->
        In "Add LIMIT to prevent scanning entire table" (snd (apply_rules rest t1 applied)) ->
        contains "LIMIT" q = false /\
        exists body,
          _add_query_hints (fst (apply_rules rest t1 applied)) query_type
          = body +:+ " LIMIT 10000").
    { intros applied. subst rest. cbn [apply_rules check action description].
      destruct (contains "SELECT" (upper t1)) eqn:Es;
        destruct (contains "LIMIT" (upper t1)) eqn:El;
        destruct (contains "GROUP BY" (upper t1)) eqn:Eg; cbn [andb negb];
        unfold _optimize_select_star;
        try (repeat match goal with
                    | |- context [if ?c then _ else _] => destruct c
                    end; cbn [fst snd]; intros Hn Hi;
             repeat rewrite in_app_iff in Hi; simpl in Hi;
             decompose [or] Hi; try contradiction; discriminate).
      intros _ _. split.
      { destruct (contains "LIMIT" q) eqn:Eq; [|reflexivity].
        discriminate (Ht1 eq_refl). }
      unfold _add_limit. rewrite El. cbn [negb].
      repeat match goal with
             | |- context [if ?c then _ else _] => destruct c
             end; cbn [fst]; rewrite ?use_approx_functions_suffix,
               add_query_hints_prepends, <- append_assoc; eexists; reflexivity. }
    destruct (contains "WHERE" (upper q) && negb (contains "DATE" (upper q))) eqn:E1;
      fold t1.
    - specialize (Hgoal ([] ++ ["Add date filter to reduce data scanned"])%list).
      destruct (apply_rules rest t1 _) as [o a]. cbn [fst snd] in *.
      intros Hin. apply Hgoal; [simpl; intuition discriminate|assumption].
    - specialize (Hgoal []).
      destruct (apply_rules rest t1 _) as [o a]. cbn [fst snd] in *.
      intros Hin. apply Hgoal; [simpl; tauto|assumption]. }
  destruct Hmain as [Hq [body Hbody]]. split; [assumption|]. split; [eauto|].
  unfold estimate_optimization_savings. rewrite Hbody, Hq.
  rewrite (contains_app_r "LIMIT" body " LIMIT 10000" eq_refl). cbn [andb negb factors].
  apply in_or_app. right. now left.
Qed.


(** X14: the optimizations that the warehouse manager applies by itself are
    those of the first two rules of the optimizer, the date filter and the
    row limit: the two give the same text on every query. *)
Theorem manager_optimizations_agree (q : string) :
  OptimizedBigQueryManager._add_query_optimizations q
  = fst (apply_rules (firstn 2 _load_optimization_rules) q []).
Proof.
  unfold OptimizedBigQueryManager._add_query_optimizations, _load_optimization_rules.
  cbn [firstn apply_rules check action description].
  destruct (contains "WHERE" (upper q)) eqn:Ew; cbn [andb].
  - destruct (contains "DATE" (upper q)); cbn [negb].
    + destruct (contains "SELECT" (upper q)); cbn [andb]; [|reflexivity].
      unfold _add_limit.
      destruct (contains "LIMIT" (upper q)); cbn [negb andb]; [reflexivity|].
      destruct (contains "GROUP BY" (upper q)); reflexivity.
    + unfold _add_date_filter. rewrite Ew. fold date_filter.
      set (t := replace "WHERE" date_filter q).
      destruct (contains "SELECT" (upper t)); cbn [andb]; [|reflexivity].
      unfold _add_limit.
      destruct (contains "LIMIT" (upper t)); cbn [negb andb]; [reflexivity|].
      destruct (contains "GROUP BY" (upper t)); reflexivity.
  - destruct (contains "SELECT" (upper q)); cbn [andb]; [|reflexivity].
    unfold _add_limit.
    destruct (contains "LIMIT" (upper q)); cbn [negb andb]; [reflexivity|].
    destruct (contains "GROUP BY" (upper q)); reflexivity.
Qed.

(** X15: the estimated reduction is one of 0, 10, 20, 30, 90 and 95 percent
    (the sum of the factors found, capped at 95), it is at least 90 as soon as
    the date factor is found, and for a query compared with itself it is 0
    with no factor. *)
Theorem savings_values (original optimized : string) :
  In (estimated_reduction (estimate_optimization_savings original optimized))
     [0; 10; 20; 30; 90; 95] /\
  (In "Date partitioning: -90%" (factors (estimate_optimization_savings original optimized)) ->
   90 <= estimated_reduction (estimate_optimization_savings original optimized)) /\
  estimate_optimization_savings original original
  = {| estimated_reduction := 0; factors := [] |}.
Proof.
  split; [|split].
  - unfold estimate_optimization_savings.
    destruct (contains "date >=" (lower optimized) && _);
      destruct (contains "APPROX_" optimized && _);
      destruct (contains "LIMIT" optimized && _); cbn; auto 10.
  - unfold estimate_optimization_savings.
    destruct (contains "date >=" (lower optimized) && _);
      destruct (contains "APPROX_" optimized && _);
      destruct (contains "LIMIT" optimized && _); cbn; intros H; try lia;
      decompose [or] H; try contradiction; discriminate.
  - unfold estimate_optimization_savings.
    destruct (contains "date >=" (lower original));
      destruct (contains "APPROX_" original);
      destruct (contains "LIMIT" original); reflexivity.
Qed.

Lemma count_query_fold (queries : list string) :
  forall p0 : patterns,
    let p := fold_left count_query queries p0 in
    missing_date_filter p
    = missing_date_filter p0
      + count_queries (fun q => negb (contains "WHERE" (upper q))
                                || negb (contains "DATE" (upper q))) queries /\
    select_star p
    = select_star p0 + count_queries (fun q => contains "SELECT *" (upper q)) queries /\
    missing_limit p
    = missing_limit p0
      + count_queries (fun q => negb (contains "LIMIT" (upper q))
                                && negb (contains "GROUP BY" (upper q))) queries /\
    exact_distinct p
    = exact_distinct p0 + count_queries (fun q => contains "COUNT(DISTINCT" (upper q)) queries /\
    full_table_scan p
    = full_table_scan p0 + count_queries (fun q => negb (contains "WHERE" (upper q))) queries.
Proof.
  unfold count_queries.
  induction queries as [|q qs IH]; intros p0; [cbn; repeat split; lia|].
  cbn zeta in *. cbn [fold_left].
  destruct (IH (count_query p0 q)) as [H1 [H2 [H3 [H4 H5]]]].
  rewrite H1, H2, H3, H4, H5. clear IH H1 H2 H3 H4 H5.
  unfold count_query. cbn [missing_date_filter select_star missing_limit exact_distinct
                             full_table_scan List.filter].
  destruct (contains "WHERE" (upper q)); destruct (contains "DATE" (upper q));
    destruct (contains "SELECT *" (upper q)); destruct (contains "LIMIT" (upper q));
    destruct (contains "GROUP BY" (upper q)); destruct (contains "COUNT(DISTINCT" (upper q));
    cbn [negb orb andb length]; repeat split; lia.
Qed.

Lemma count_queries_bounds (test : string -> bool) (queries : list string) :
  0 <= count_queries test queries <= Z.of_nat (length queries).
Proof.
  unfold count_queries. induction queries as [|q qs IH]; [cbn; lia|].
  cbn [List.filter length]. destruct (test q); cbn [length]; lia.
Qed.

Lemma count_queries_split (t1 t2 t3 : string -> bool) (queries : list string) :
  (forall q, t1 q = true \/ t2 q = true <-> t3 q = true) ->
  (forall q, t1 q = true -> t2 q = true -> False) ->
  count_queries t1 queries + count_queries t2 queries = count_queries t3 queries.
Proof.
  intros Hor Hex. unfold count_queries.
  induction queries as [|q qs IH]; [reflexivity|]. cbn [List.filter].
  specialize (Hor q). specialize (Hex q).
  destruct (t1 q), (t2 q), (t3 q); cbn [length]; try lia;
    exfalso; intuition discriminate.
Qed.

Lemma count_queries_le (t1 t2 : string -> bool) (queries : list string) :
  (forall q, t1 q = true -> t2 q = true) ->
  count_queries t1 queries <= count_queries t2 queries.
Proof.
  intros Himp. unfold count_queries.
  induction queries as [|q qs IH]; [reflexivity|]. cbn [List.filter].
  specialize (Himp q). destruct (t1 q), (t2 q); cbn [length]; lia.
Qed.

(** X16: the counts of [analyze_query_patterns] are those of the checks of
    the optimizer: the queries counted as missing a date filter are those on
    which the date-filter rule fires together with those counted as full
    table scans; the select-star and exact-distinct counts are the numbers of
    queries on which those rules fire; every query on which the limit rule
    fires is counted as missing a limit; and no count exceeds the number of
    queries. *)
Theorem analysis_counts_match_rules (queries : list string) :
  let a := analyze_query_patterns queries in
  let p := analysis_patterns a in
  total_queries a = Z.of_nat (length queries) /\
  missing_date_filter p
  = count_queries (rule_fires "add_date_filter") queries + full_table_scan p /\
  select_star p = count_queries (rule_fires "optimize_select_star") queries /\
  exact_distinct p = count_queries (rule_fires "use_approx_functions") queries /\
  count_queries (rule_fires "add_limit") queries <= missing_limit p /\
  0 <= full_table_scan p <= missing_date_filter p /\
  missing_date_filter p <= total_queries a /\
  0 <= select_star p <= total_queries a /\
  0 <= missing_limit p <= total_queries a /\
  0 <= exact_distinct p <= total_queries a.
Proof.
  cbn zeta. unfold analyze_query_patterns. cbn [total_queries analysis_patterns].
  destruct (count_query_fold queries no_patterns) as [H1 [H2 [H3 [H4 H5]]]].
  cbn zeta in *. cbn [no_patterns missing_date_filter select_star missing_limit
                        exact_distinct full_table_scan] in *.
  rewrite H1, H2, H3, H4, H5. clear H1 H2 H3 H4 H5.
  assert (Ed : count_queries (rule_fires "add_date_filter") queries
               + count_queries (fun q => negb (contains "WHERE" (upper q))) queries
               = count_queries (fun q => negb (contains "WHERE" (upper q))
                                         || negb (contains "DATE" (upper q))) queries).
  { apply count_queries_split; intros q; unfold rule_fires; cbn;
      destruct (contains "WHERE" (upper q)), (contains "DATE" (upper q)); cbn;
      intuition discriminate. }
  assert (Es : count_queries (rule_fires "optimize_select_star") queries
               = count_queries (fun q => contains "SELECT *" (upper q)) queries).
  { unfold count_queries. f_equal. f_equal. apply filter_ext. intros q.
    unfold rule_fires. cbn. now rewrite !orb_false_r. }
  assert (Ex : count_queries (rule_fires "use_approx_functions") queries
               = count_queries (fun q => contains "COUNT(DISTINCT" (upper q)) queries).
  { unfold count_queries. f_equal. f_equal. apply filter_ext. intros q.
    unfold rule_fires. cbn. now rewrite !orb_false_r. }
  assert (El : count_queries (rule_fires "add_limit") queries
               <= count_queries (fun q => negb (contains "LIMIT" (upper q))
                                          && negb (contains "GROUP BY" (upper q))) queries).
  { apply count_queries_le. intros q. unfold rule_fires. cbn.
    destruct (contains "SELECT" (upper q)), (contains "LIMIT" (upper q)),
      (contains "GROUP BY" (upper q)); cbn; intuition discriminate. }
  pose proof (count_queries_bounds (rule_fires "add_date_filter") queries).
  pose proof (count_queries_bounds (fun q => negb (contains "WHERE" (upper q))) queries).
  pose proof (count_queries_bounds (fun q => negb (contains "WHERE" (upper q))
                                            || negb (contains "DATE" (upper q))) queries).
  pose proof (count_queries_bounds (fun q => contains "SELECT *" (upper q)) queries).
  pose proof (count_queries_bounds (fun q => negb (contains "LIMIT" (upper q))
                                            && negb (contains "GROUP BY" (upper q))) queries).
  pose proof (count_queries_bounds (fun q => contains "COUNT(DISTINCT" (upper q)) queries).
  rewrite Es, Ex. repeat split; lia.
Qed.

End OptimizerExtraFacts.

(** ** The cost-controlled execution, further *)

Section ManagerFacts.

Variable Rows : Type.
Variable dry_run : string -> result Z.
Variable run_query : string -> result (OptimizedBigQueryManager.query_job Rows).
Variable load_cost_row : OptimizedBigQueryManager.cost_row -> result unit.

Import OptimizedBigQueryManager.

Local Abbreviation execute :=
  (execute_query_with_cost_control Rows dry_run run_query load_cost_row).
Local Abbreviation run_all := (run_executions Rows dry_run run_query load_cost_row).

(** X17: a query whose estimate fails is refused as if it exceeded the byte
    limit with 0 bytes, and the error of the dry run is not passed on; a query
    whose estimate exceeds 100 MB is refused with its byte count. In both
    cases the manager is left as it was and no cost row is handed to the
    load, whatever the execution of the query would give. *)
Theorem estimate_gate (self : manager) (q query_type : string) (duration_ms : Z) :
  queries_today self < MAX_QUERIES_PER_DAY ->
  (forall e, error (estimate_query_cost dry_run q) = Some e ->
             execute self q query_type duration_ms
             = (self, [], Raise (QueryExceedsByteLimit 0))) /\
  (forall b, dry_run q = Ok b -> b > MAX_BYTES_PER_QUERY ->
             error (estimate_query_cost dry_run q) = None ->
             execute self q query_type duration_ms
             = (self, [], Raise (QueryExceedsByteLimit b))).
Proof.
  intros Hlt. unfold execute_query_with_cost_control.
  destruct (Z.geb_spec (queries_today self) MAX_QUERIES_PER_DAY); [lia|].
  unfold estimate_query_cost. split.
  - intros e. destruct (dry_run q) as [b|e']; cbn [bind].
    + destruct (int_truediv b 1000000000000); cbn [bind error within_limit negb bytes_processed];
        [discriminate|reflexivity].
    + reflexivity.
  - intros b -> Hb. cbn [bind].
    destruct (int_truediv b 1000000000000); cbn [bind error within_limit bytes_processed];
      [|discriminate].
    intros _. destruct (Z.leb_spec b MAX_BYTES_PER_QUERY); [lia|reflexivity].
Qed.

(** X18: when the query ran but the load of its cost row lets an exception
    out, the call raises it and the counters stay as they were, although the
    query was executed and its row handed to the load. *)
Theorem tracking_failure_loses_usage (self : manager) (q query_type : string)
    (duration_ms : Z) (job : query_job Rows) (x : float) (e : py_exn) :
  queries_today self < MAX_QUERIES_PER_DAY ->
  within_limit (estimate_query_cost dry_run q) = true ->
  run_query (_add_query_optimizations q) = Ok job ->
  int_truediv (or_zero (total_bytes_billed Rows job)) 1000000000000 = Ok x ->
  (forall row, load_cost_row row = Raise e) ->
  exists row,
    execute self q query_type duration_ms = (self, [row], Raise e) /\
    row_bytes_billed row = or_zero (total_bytes_billed Rows job) /\
    row_query_type row = query_type.
Proof.
  intros Hlt Hw Hrun Hx Hload. unfold execute_query_with_cost_control.
  destruct (Z.geb_spec (queries_today self) MAX_QUERIES_PER_DAY); [lia|].
  rewrite Hw, Hrun. cbn [negb]. unfold _track_query_cost. rewrite Hx, Hload.
  eexists. repeat split.
Qed.

Lemma execute_counts (self : manager) (q query_type : string) (duration_ms : Z) :
  let self' := fst (fst (execute self q query_type duration_ms)) in
  self' = self \/
  (queries_today self < MAX_QUERIES_PER_DAY /\
   queries_today self' = queries_today self + 1 /\
   exists rows, snd (execute self q query_type duration_ms) = Ok rows).
Proof.
  cbn zeta. unfold execute_query_with_cost_control.
  destruct (Z.geb_spec (queries_today self) MAX_QUERIES_PER_DAY); [now left|].
  destruct (negb _); [now left|].
  destruct (run_query _) as [job|e]; [|now left].
  destruct (_track_query_cost _ _ _ _ _ _) as [rows [u|e]]; [|now left].
  right. cbn. split; [lia|]. split; [reflexivity|eauto].
Qed.

(** X19: over any sequence of executions the count of queries of the day
    never goes down, grows by at most one per call and never passes the cap of
    1000; once the cap is reached every call is refused and the manager does
    not change any more. *)
Theorem daily_cap_is_kept (calls : list (string * string * Z)) :
  forall self : manager,
    (queries_today self <= MAX_QUERIES_PER_DAY ->
     queries_today self <= queries_today (run_all self calls) <= MAX_QUERIES_PER_DAY /\
     queries_today (run_all self calls) <= queries_today self + Z.of_nat (length calls)) /\
    (MAX_QUERIES_PER_DAY <= queries_today self ->
     run_all self calls = self /\
     forall q query_type duration_ms,
       execute self q query_type duration_ms
       = (self, [], Raise (DailyQueryLimitExceeded MAX_QUERIES_PER_DAY))).
Proof.
  induction calls as [|[[q qt] d] calls IH]; intros self.
  - cbn. split; intros H; [lia|]. split; [reflexivity|].
    intros q qt d. unfold execute_query_with_cost_control.
    destruct (Z.geb_spec (queries_today self) MAX_QUERIES_PER_DAY); [reflexivity|lia].
  - unfold run_executions in *. cbn [fold_left length].
    destruct (execute_counts self q qt d) as [Hs|[Hlt [Hq _]]]; cbn zeta in *.
    + rewrite Hs. destruct (IH self) as [IH1 IH2]. split; intros H.
      * specialize (IH1 H). lia.
      * apply IH2. assumption.
    + destruct (IH (fst (fst (execute self q qt d)))) as [IH1 _]. split; intros H; [|lia].
      specialize (IH1 ltac:(lia)). lia.
Qed.

End ManagerFacts.

(** ** Sample runs of the further properties *)

Lemma get_after_set_hits_witness :
  exists self',
    SampleCache.set (QueryCache.new 3600) "q" (Some 7) (Some 60) None 0 0 = Ok self' /\
    SampleCache.get self' "q" None 59999999
    = ({| QueryCache.cache := QueryCache.cache self';
          QueryCache.default_ttl := 3600;
          QueryCache.hit_count := 0 + 1;
          QueryCache.miss_count := 0 |}, Some 7).
Proof.
  eexists. split; [vm_compute; reflexivity|].
  apply (get_after_set_hits unit Z SampleCache.json_dumps_sorted SampleCache.params_is_empty
           SampleCache.md5_hexdigest (QueryCache.new 3600) _ "q" (Some 7) (Some 60) None
           0 0 59999999).
  - vm_compute; reflexivity.
  - vm_compute; reflexivity.
Defined.

Lemma get_expired_evicts_witness :
  snd (SampleCache.get SampleRuns.stored "q" None 60000000) = None /\
  QueryCache.cache (fst (SampleCache.get SampleRuns.stored "q" None 60000000))
  = delete (QueryCache.get_cache_key unit SampleCache.json_dumps_sorted
              SampleCache.params_is_empty SampleCache.md5_hexdigest "q" None)
           (QueryCache.cache SampleRuns.stored) /\
  QueryCache.miss_count (fst (SampleCache.get SampleRuns.stored "q" None 60000000))
  = QueryCache.miss_count SampleRuns.stored + 1 /\
  QueryCache.hit_count (fst (SampleCache.get SampleRuns.stored "q" None 60000000))
  = QueryCache.hit_count SampleRuns.stored /\
  snd (SampleCache.get (fst (SampleCache.get SampleRuns.stored "q" None 60000000))
         "q" None 60000001) = None.
Proof.
  apply (get_expired_evicts unit Z SampleCache.json_dumps_sorted SampleCache.params_is_empty
           SampleCache.md5_hexdigest SampleRuns.stored "q" None SampleRuns.stored_entry
           60000000 60000001).
  - vm_compute; reflexivity.
  - vm_compute. discriminate.
Defined.

Lemma set_overwrites_witness :
  exists s2,
    SampleCache.set (QueryCache.new 3600) "q" (Some 9) None None 5 5 = Ok s2 /\
    forall k : string,
      k <> QueryCache.get_cache_key unit SampleCache.json_dumps_sorted
             SampleCache.params_is_empty SampleCache.md5_hexdigest "q" None ->
      QueryCache.cache s2 !! k = QueryCache.cache (QueryCache.new 3600) !! k.
Proof.
  eexists.
  apply (set_overwrites unit Z SampleCache.json_dumps_sorted SampleCache.params_is_empty
           SampleCache.md5_hexdigest (QueryCache.new 3600) SampleRuns.stored _ "q"
           (Some 7) (Some 9) (Some 60) None None 0 0 5 5).
  - vm_compute; reflexivity.
  - vm_compute; reflexivity.
Defined.

Lemma cached_payload_is_served_witness :
  SampleWarehouse.get_cached_or_execute SampleRuns.stored "q" SampleWarehouse.executor_func
    "dashboard" None 1 2 3
  = ({| QueryCache.cache := QueryCache.cache SampleRuns.stored;
        QueryCache.default_ttl := QueryCache.default_ttl SampleRuns.stored;
        QueryCache.hit_count := QueryCache.hit_count SampleRuns.stored + 1;
        QueryCache.miss_count := QueryCache.miss_count SampleRuns.stored |}, Ok (Some 7)).
Proof.
  apply (cached_payload_is_served unit Z SampleCache.json_dumps_sorted
           SampleCache.params_is_empty SampleCache.md5_hexdigest SampleRuns.stored "q"
           "dashboard" SampleWarehouse.executor_func None SampleRuns.stored_entry 7 1 2 3).
  - vm_compute; reflexivity.
  - vm_compute; reflexivity.
  - reflexivity.
Defined.

Lemma cached_none_is_executed_again_witness :
  SampleWarehouse.get_cached_or_execute SampleRuns.stored_none "q"
    SampleWarehouse.executor_func "dashboard" None 1 2 3
  = ({| QueryCache.cache := QueryCache.cache SampleRuns.stored_none;
        QueryCache.default_ttl := QueryCache.default_ttl SampleRuns.stored_none;
        QueryCache.hit_count := QueryCache.hit_count SampleRuns.stored_none + 1;
        QueryCache.miss_count := QueryCache.miss_count SampleRuns.stored_none |},
     Raise (ExternalError "timeout")).
Proof.
  apply (cached_none_is_executed_again unit Z SampleCache.json_dumps_sorted
           SampleCache.params_is_empty SampleCache.md5_hexdigest SampleRuns.stored_none "q"
           "dashboard" SampleWarehouse.executor_func None SampleRuns.stored_none_entry
           (ExternalError "timeout") 1 2 3).
  - vm_compute; reflexivity.
  - vm_compute; reflexivity.
  - reflexivity.
  - reflexivity.
Defined.

Lemma executed_result_is_cached_witness :
  exists self1,
    SampleWarehouse.get_cached_or_execute (QueryCache.new 3600) "q" SampleRuns.executor_ok
      "report" None 0 0 0 = (self1, Ok (Some 7)) /\
    QueryCache.expires
      <$> QueryCache.cache self1
          !! QueryCache.get_cache_key unit SampleCache.json_dumps_sorted
               SampleCache.params_is_empty SampleCache.md5_hexdigest "q" None
    = Some 7200000000 /\
    snd (SampleWarehouse.get_cached_or_execute self1 "q" SampleWarehouse.executor_func
           "report" None 7199999999 0 0) = Ok (Some 7) /\
    snd (SampleWarehouse.get_cached_or_execute self1 "q" SampleWarehouse.executor_func
           "report" None 7200000000 0 0) = Raise (ExternalError "timeout").
Proof.
  exists (fst (SampleWarehouse.get_cached_or_execute (QueryCache.new 3600) "q"
                 SampleRuns.executor_ok "report" None 0 0 0)).
  split; [vm_compute; reflexivity|].
  destruct (executed_result_is_cached unit Z SampleCache.json_dumps_sorted
              SampleCache.params_is_empty SampleCache.md5_hexdigest (QueryCache.new 3600)
              (fst (SampleWarehouse.get_cached_or_execute (QueryCache.new 3600) "q"
                      SampleRuns.executor_ok "report" None 0 0 0))
              "q" "report" SampleRuns.executor_ok None 7 0 0 0)
    as [H1 [H2 H3]].
  - vm_compute; reflexivity.
  - vm_compute; reflexivity.
  - split; [rewrite H1; reflexivity|]. split.
    + apply H2. vm_compute; reflexivity.
    + apply (H3 SampleWarehouse.executor_func 7200000000 0 0 (ExternalError "timeout")).
      * vm_compute. discriminate.
      * reflexivity.
Defined.

Lemma check_query_cost_approves_witness :
  exists d,
    CostMonitor.check_query_cost CostMonitor.init 10000000 = Ok d /\
    CostMonitor.approved d = true /\
    (CostMonitor.approved d = true -> CostMonitor.severity d = CostMonitor.INFO).
Proof.
  destruct (check_query_cost_approves CostMonitor.init 10000000
              (S754_finite false 7378697629483821 (-67))) as [d [H1 [H2 H3]]].
  - vm_compute; reflexivity.
  - exists d. split; [exact H1|]. split; [rewrite H2; vm_compute; reflexivity|].
    intros Ha. rewrite (H3 Ha). vm_compute; reflexivity.
Defined.

Lemma status_after_rollovers_witness :
  (exists st,
     CostMonitor.get_cost_status
       (CostMonitor.reset_monthly_counters
          (CostMonitor.reset_daily_counters
             (CostMonitor.run CostMonitor.init Scenario.monthly_breach))) = Ok st /\
     CostMonitor.status st = CostMonitor.HEALTHY /\
     CostMonitor.status_emergency_stop st = false) /\
  CostMonitor.get_cost_status
    (CostMonitor.reset_monthly_counters
       (CostMonitor.reset_daily_counters SampleRuns.zero_limit_monitor))
  = Raise ZeroDivisionError.
Proof.
  split.
  - apply (proj1 (status_after_rollovers
                    (CostMonitor.run CostMonitor.init Scenario.monthly_breach))).
    vm_compute; reflexivity.
  - apply (proj2 (status_after_rollovers SampleRuns.zero_limit_monitor)).
    vm_compute; reflexivity.
Defined.

Lemma default_thresholds_never_warn_witness :
  (CostMonitor.approved
     {| CostMonitor.approved := true;
        CostMonitor.info := CostMonitor.EstimatedCost (S754_finite false 7378697629483821 (-67));
        CostMonitor.severity := CostMonitor.INFO |} = false /\
   CostMonitor.severity
     {| CostMonitor.approved := true;
        CostMonitor.info := CostMonitor.EstimatedCost (S754_finite false 7378697629483821 (-67));
        CostMonitor.severity := CostMonitor.INFO |} = CostMonitor.CRITICAL \/
   CostMonitor.approved
     {| CostMonitor.approved := true;
        CostMonitor.info := CostMonitor.EstimatedCost (S754_finite false 7378697629483821 (-67));
        CostMonitor.severity := CostMonitor.INFO |} = true /\
   CostMonitor.severity
     {| CostMonitor.approved := true;
        CostMonitor.info := CostMonitor.EstimatedCost (S754_finite false 7378697629483821 (-67));
        CostMonitor.severity := CostMonitor.INFO |} = CostMonitor.INFO) /\
  (forall c l,
     CostMonitor.info
       {| CostMonitor.approved := true;
          CostMonitor.info := CostMonitor.EstimatedCost (S754_finite false 7378697629483821 (-67));
          CostMonitor.severity := CostMonitor.INFO |}
     = CostMonitor.ReasonCostExceedsLimit c l -> 10000000 > 100000000).
Proof.
  apply (default_thresholds_never_warn CostMonitor.init 10000000).
  - reflexivity.
  - vm_compute; reflexivity.
Defined.

Lemma limit_rule_appends_limit_witness :
  contains "LIMIT" "SELECT page, views FROM pages" = false /\
  (exists body,
     fst (QueryOptimizer.optimize_query "SELECT page, views FROM pages" "dashboard")
     = body +:+ " LIMIT 10000") /\
  In "Row limit: -10%"
     (QueryOptimizer.factors
        (QueryOptimizer.estimate_optimization_savings "SELECT page, views FROM pages"
           (fst (QueryOptimizer.optimize_query "SELECT page, views FROM pages" "dashboard")))).
Proof.
  apply (limit_rule_appends_limit "SELECT page, views FROM pages" "dashboard").
  vm_compute. left. reflexivity.
Defined.

Lemma savings_values_witness :
  90 <= QueryOptimizer.estimated_reduction
          (QueryOptimizer.estimate_optimization_savings
             "SELECT a FROM t WHERE x = 1"
             "SELECT a FROM t WHERE date >= DATE_SUB(CURRENT_DATE(), INTERVAL 30 DAY) AND x = 1").
Proof.
  apply (proj1 (proj2 (savings_values
                         "SELECT a FROM t WHERE x = 1"
                         "SELECT a FROM t WHERE date >= DATE_SUB(CURRENT_DATE(), INTERVAL 30 DAY) AND x = 1"))).
  vm_compute. left. reflexivity.
Defined.

Lemma estimate_gate_witness :
  OptimizedBigQueryManager.execute_query_with_cost_control (list Z) SampleRuns.dry_run_fails
    SampleRuns.run_query_ok SampleWarehouse.load_cost_row OptimizedBigQueryManager.init
    "SELECT 1" "general" 3
  = (OptimizedBigQueryManager.init, [], Raise (QueryExceedsByteLimit 0)) /\
  OptimizedBigQueryManager.execute_query_with_cost_control (list Z) SampleRuns.dry_run_big
    SampleRuns.run_query_ok SampleWarehouse.load_cost_row OptimizedBigQueryManager.init
    "SELECT 1" "general" 3
  = (OptimizedBigQueryManager.init, [], Raise (QueryExceedsByteLimit 200000000)).
Proof.
  split.
  - apply (proj1 (estimate_gate (list Z) SampleRuns.dry_run_fails SampleRuns.run_query_ok
                    SampleWarehouse.load_cost_row OptimizedBigQueryManager.init
                    "SELECT 1" "general" 3 ltac:(reflexivity))
             (ExternalError "dry run")).
    reflexivity.
  - apply (proj2 (estimate_gate (list Z) SampleRuns.dry_run_big SampleRuns.run_query_ok
                    SampleWarehouse.load_cost_row OptimizedBigQueryManager.init
                    "SELECT 1" "general" 3 ltac:(reflexivity))
             200000000).
    + reflexivity.
    + reflexivity.
    + vm_compute; reflexivity.
Defined.

Lemma tracking_failure_loses_usage_witness :
  exists row,
    OptimizedBigQueryManager.execute_query_with_cost_control (list Z) SampleWarehouse.dry_run
      SampleRuns.run_query_ok SampleRuns.load_fails OptimizedBigQueryManager.init
      "SELECT 1" "general" 3
    = (OptimizedBigQueryManager.init, [row], Raise UnboundLocalError) /\
    OptimizedBigQueryManager.row_bytes_billed row
    = OptimizedBigQueryManager.or_zero
        (OptimizedBigQueryManager.total_bytes_billed (list Z) SampleRuns.job_ok) /\
    OptimizedBigQueryManager.row_query_type row = "general".
Proof.
  apply (tracking_failure_loses_usage (list Z) SampleWarehouse.dry_run
           SampleRuns.run_query_ok SampleRuns.load_fails OptimizedBigQueryManager.init
           "SELECT 1" "general" 3 SampleRuns.job_ok
           (S754_finite false 6189700196426901 (-69)) UnboundLocalError).
  - reflexivity.
  - vm_compute; reflexivity.
  - reflexivity.
  - vm_compute; reflexivity.
  - intros row. reflexivity.
Defined.

Lemma daily_cap_is_kept_witness :
  (OptimizedBigQueryManager.queries_today OptimizedBigQueryManager.init
   <= OptimizedBigQueryManager.queries_today
        (OptimizedBigQueryManager.run_executions (list Z) SampleWarehouse.dry_run
           SampleRuns.run_query_ok SampleWarehouse.load_cost_row
           OptimizedBigQueryManager.init [("SELECT 1", "general", 3); ("SELECT 2", "general", 4)])
   <= OptimizedBigQueryManager.MAX_QUERIES_PER_DAY /\
   OptimizedBigQueryManager.queries_today
     (OptimizedBigQueryManager.run_executions (list Z) SampleWarehouse.dry_run
        SampleRuns.run_query_ok SampleWarehouse.load_cost_row
        OptimizedBigQueryManager.init [("SELECT 1", "general", 3); ("SELECT 2", "general", 4)])
   <= OptimizedBigQueryManager.queries_today OptimizedBigQueryManager.init
      + Z.of_nat (length [("SELECT 1", "general", 3); ("SELECT 2", "general", 4)])) /\
  OptimizedBigQueryManager.run_executions (list Z) SampleWarehouse.dry_run
    SampleRuns.run_query_ok SampleWarehouse.load_cost_row SampleRuns.capped
    [("SELECT 1", "general", 3); ("SELECT 2", "general", 4)]
  = SampleRuns.capped.
Proof.
  split.
  - apply (proj1 (daily_cap_is_kept (list Z) SampleWarehouse.dry_run SampleRuns.run_query_ok
                    SampleWarehouse.load_cost_row
                    [("SELECT 1", "general", 3); ("SELECT 2", "general", 4)]
                    OptimizedBigQueryManager.init)).
    vm_compute. discriminate.
  - apply (proj2 (daily_cap_is_kept (list Z) SampleWarehouse.dry_run SampleRuns.run_query_ok
                    SampleWarehouse.load_cost_row
                    [("SELECT 1", "general", 3); ("SELECT 2", "general", 4)]
                    SampleRuns.capped)).
    vm_compute. discriminate.
Defined.
